(** * Logging bootstrap of the trading bot: [src/utils/logger.py]

    A shallow embedding of [setup_logging] and [get_logger] together with
    the part of their environment they drive: the values a YAML document
    loads to, [pathlib]'s lexical parent, and the handler registry, level
    check, file-sink options and record rendering of the logging engine
    (loguru).  The file system and the YAML grammar stay abstract behind
    the [Host] interface. *)

From Stdlib Require Import String Ascii List ZArith Lia Bool DecimalString.
From Stdlib Require Import DecimalPos Sorted Permutation.
Import ListNotations.
Local Open Scope string_scope.
Local Open Scope Z_scope.

Set Implicit Arguments.
Set Warnings "-register-all".

(* ================================================================= *)
(** ** Python values, as [yaml.safe_load] builds them *)

(** [POther] stands for an object of any other type (a float, a date,
    bytes, a set): the code only ever formats such a value or hands it to
    a type test that rejects it, so it is kept as the two texts [str()]
    and [repr()] give for it. *)
Inductive pyval : Type :=
| PNone
| PBool (b : bool)
| PInt (n : Z)
| PStr (s : string)
| PList (l : list pyval)
| PDict (items : list (pyval * pyval))
| POther (str_text repr_text : string).

Definition is_dict (v : pyval) : bool :=
  match v with PDict _ => true | _ => false end.

(** Key test of a dict lookup with a [str] key: only a [str] key with the
    same text is equal to it. *)
Definition key_is (k : string) (v : pyval) : bool :=
  match v with PStr s => String.eqb k s | _ => false end.

Fixpoint dict_lookup (k : string) (items : list (pyval * pyval)) : option pyval :=
  match items with
  | [] => None
  | (k', v) :: rest => if key_is k k' then Some v else dict_lookup k rest
  end.

(** *** [str()] and [repr()] *)

Definition nl : string := String (ascii_of_nat 10) EmptyString.

Definition str_of_int (n : Z) : string := NilZero.string_of_int (Z.to_int n).

Fixpoint contains_char (c : ascii) (s : string) : bool :=
  match s with
  | EmptyString => false
  | String d rest => Ascii.eqb c d || contains_char c rest
  end.

Definition hex_digit (n : nat) : ascii :=
  match n with
  | 0%nat => "0" | 1%nat => "1" | 2%nat => "2" | 3%nat => "3" | 4%nat => "4"
  | 5%nat => "5" | 6%nat => "6" | 7%nat => "7" | 8%nat => "8" | 9%nat => "9"
  | 10%nat => "a" | 11%nat => "b" | 12%nat => "c" | 13%nat => "d"
  | 14%nat => "e" | _ => "f"
  end%char.

(** One character inside a [repr] of a [str] quoted with [q]. *)
Definition repr_char (q c : ascii) : string :=
  let n := nat_of_ascii c in
  if Ascii.eqb c "\"%char then "\\"
  else if Ascii.eqb c q then String "\"%char (String q EmptyString)
  else if Nat.eqb n 10 then "\n"
  else if Nat.eqb n 13 then "\r"
  else if Nat.eqb n 9 then "\t"
  else if Nat.ltb n 32 || Nat.eqb n 127 then
    String "\"%char (String "x"%char
      (String (hex_digit (Nat.div n 16)) (String (hex_digit (Nat.modulo n 16)) EmptyString)))
  else String c EmptyString.

Fixpoint repr_chars (q : ascii) (s : string) : string :=
  match s with
  | EmptyString => EmptyString
  | String c rest => repr_char q c ++ repr_chars q rest
  end.

Definition squote : ascii := "'"%char.
Definition dquote : ascii := ascii_of_nat 34.

(** [repr] of a [str]: single quotes, unless the text has a single quote
    and no double quote. *)
Definition repr_str (s : string) : string :=
  let q := if contains_char squote s && negb (contains_char dquote s)
           then dquote else squote in
  String q (repr_chars q s ++ String q EmptyString).

Fixpoint join (sep : string) (l : list string) : string :=
  match l with
  | [] => EmptyString
  | [x] => x
  | x :: rest => x ++ sep ++ join sep rest
  end.

Fixpoint py_repr (v : pyval) : string :=
  match v with
  | PNone => "None"
  | PBool true => "True"
  | PBool false => "False"
  | PInt n => str_of_int n
  | PStr s => repr_str s
  | PList l => "[" ++ join ", " (map py_repr l) ++ "]"
  | PDict items =>
      "{" ++ join ", "
        ((fix go (l : list (pyval * pyval)) : list string :=
            match l with
            | [] => []
            | (k, x) :: rest => (py_repr k ++ ": " ++ py_repr x) :: go rest
            end) items) ++ "}"
  | POther _ r => r
  end.

(** What an f-string field [{v}] inserts. *)
Definition py_str (v : pyval) : string :=
  match v with
  | PStr s => s
  | POther s _ => s
  | _ => py_repr v
  end.

(* ================================================================= *)
(** ** Exceptions and the effect monad *)

Inductive exn : Type :=
| OSError (errno : Z)
| YAMLError
| AttributeError
| ValueError
| TypeError
| OtherError (what : string).

Inductive outcome (A : Type) : Type :=
| Returned (a : A)
| Raised (e : exn).
Arguments Raised {A} e.

(* ================================================================= *)
(** ** The host: what the module reaches outside itself

    The file system is held abstract: its state, the queries the code
    makes of it and the operations that change it.  So are the grammar of
    YAML and the engine's parser of duration texts, which no line of the
    module depends on beyond their result.  An operation that raises
    returns the exception on the left. *)

Record datetime : Type := mk_datetime {
  dt_year : Z; dt_month : Z; dt_day : Z;
  dt_hour : Z; dt_minute : Z; dt_second : Z; dt_microsecond : Z
}.

(** Where a sink writes: a standard stream, or the file of the file sink
    that was given [path]. *)
Inductive stream : Type := Stdout | Stderr.

Inductive target : Type :=
| ToStream (st : stream)
| ToFile (path : string).

(** The groups of the engine's size pattern
    [([e+-.0-9]+) \s* ([kmgtpezy])? (i)? (b)], letter case ignored:
    the limit is [float(mantissa) * base ** power / 8 or 1]. *)
Record rotation : Type := mk_rotation {
  rot_mantissa : string;
  rot_power : nat;       (* 0 without a unit letter, 1 for k, 2 for m, ... *)
  rot_binary : bool;     (* an "i": powers of 1024 instead of 1000 *)
  rot_bits : bool        (* a small "b": bits, an eighth of a byte *)
}.

(** What [Path(p).exists()] comes to: an answer, or the error of a lookup
    that the system refuses and [exists] lets through (a directory on the
    way that may not be searched).  An answer is written as its boolean. *)
Inductive lookup : Type :=
| Answered (found : bool)
| Refused (e : exn).

Coercion Answered : bool >-> lookup.

Class Host : Type := {
  os_state : Type;
  (** [Path(p).exists()] *)
  path_exists : string -> os_state -> lookup;
  (** [open(p, 'r')] and reading the text through *)
  read_text : string -> os_state -> exn + string;
  (** [yaml.safe_load]; [None] is a [yaml.YAMLError] *)
  safe_load : string -> option pyval;
  (** [Path(p).is_dir()] *)
  is_dir : string -> os_state -> bool;
  (** [Path(p).mkdir(parents=True, exist_ok=True)] *)
  mkdir_parents : string -> os_state -> exn + os_state;
  (** the file sink filling the time fields of a path that has braces *)
  expand_path : string -> os_state -> exn + string;
  (** the file sink creating the directories of its path and opening the
      file for appending *)
  open_append : string -> os_state -> exn + os_state;
  (** a sink receiving one rendered record; failures are caught by the
      engine and never reach the caller *)
  write_sink : target -> string -> os_state -> os_state;
  (** the wall clock *)
  now : os_state -> datetime;
  (** whether the engine's duration parser accepts a text *)
  parse_duration_ok : string -> bool;
  (** whether [string.Formatter] can read the braces of a path; the file
      sink reads them before it looks at its options *)
  path_braces_ok : string -> bool;
  (** the engine's size parser on a text that is not all ASCII, where the
      digits and the white space of every script count; [None] when the
      text is refused *)
  size_beyond_ascii : string -> option rotation;
  (** the name under which the interpreter loaded [logger.py] *)
  __name__ : string
}.

(** What the proofs below assume of a file system. *)
Class HostLaws (H : Host) : Prop := {
  mkdir_parents_is_dir :
    forall p s s', mkdir_parents p s = inr s' -> is_dir p s' = true;
  open_append_keeps_dirs :
    forall p q s s', open_append p s = inr s' ->
                     is_dir q s = true -> is_dir q s' = true;
  write_sink_keeps_dirs :
    forall t x q s, is_dir q s = true -> is_dir q (write_sink t x s) = true
}.

(* ================================================================= *)
(** ** [pathlib]: the lexical parent of a POSIX path *)

Definition slash : ascii := "/"%char.

(** Components between slashes, in order; [acc] is the component being
    read. *)
Fixpoint split_slash (acc : string) (s : string) : list string :=
  match s with
  | EmptyString => [acc]
  | String c rest =>
      if Ascii.eqb c slash then acc :: split_slash EmptyString rest
      else split_slash (acc ++ String c EmptyString) rest
  end.

Definition is_real_part (p : string) : bool :=
  negb (String.eqb p "" || String.eqb p ".").

(** The root [pathlib] reads off a path: two leading slashes exactly are
    kept, any other number of them is one. *)
Definition path_root (s : string) : string :=
  match s with
  | String a (String b (String c _)) =>
      if Ascii.eqb a slash then
        if Ascii.eqb b slash then if Ascii.eqb c slash then "/" else "//"
        else "/"
      else ""
  | String a (String b EmptyString) =>
      if Ascii.eqb a slash then if Ascii.eqb b slash then "//" else "/" else ""
  | String a EmptyString => if Ascii.eqb a slash then "/" else ""
  | EmptyString => ""
  end.

Definition path_parts (s : string) : list string :=
  filter is_real_part (split_slash EmptyString s).

Definition path_str (root : string) (parts : list string) : string :=
  match root, parts with
  | EmptyString, [] => "."
  | _, _ => root ++ join "/" parts
  end.

(** [str(Path(s).parent)] *)
Definition path_parent (s : string) : string :=
  path_str (path_root s) (removelast (path_parts s)).

(* ================================================================= *)
(** ** The logging engine: levels and file-sink options *)

Fixpoint assoc {A : Type} (k : string) (l : list (string * A)) : option A :=
  match l with
  | [] => None
  | (k', a) :: rest => if String.eqb k k' then Some a else assoc k rest
  end.

(** The severity table the engine starts with; the module registers no
    level of its own. *)
Definition levels : list (string * Z) :=
  [("TRACE", 5); ("DEBUG", 10); ("INFO", 20); ("SUCCESS", 25);
   ("WARNING", 30); ("ERROR", 40); ("CRITICAL", 50)].

Definition level_no (name : string) : option Z := assoc name levels.

(** The [level=] argument of [logger.add]: a known name, or a number that
    is not negative ([bool] is a subtype of [int]). *)
Definition check_level (v : pyval) : outcome Z :=
  match v with
  | PStr s => match level_no s with
              | Some n => Returned n
              | None => Raised ValueError
              end
  | PInt n => if n <? 0 then Raised ValueError else Returned n
  | PBool b => Returned (if b then 1 else 0)
  | _ => Raised TypeError
  end.

(** *** Texts as character lists *)

Definition chars (s : string) : list ascii := list_ascii_of_string s.
Definition text (l : list ascii) : string := string_of_list_ascii l.

(** ASCII white space, as [str.strip] and the pattern [\s] take it. *)
Definition is_space (c : ascii) : bool :=
  let n := nat_of_ascii c in
  Nat.eqb n 32 || (Nat.leb 9 n && Nat.leb n 13) || (Nat.leb 28 n && Nat.leb n 31).

Definition is_digit (c : ascii) : bool :=
  let n := nat_of_ascii c in Nat.leb 48 n && Nat.leb n 57.

Definition lower (c : ascii) : ascii :=
  let n := nat_of_ascii c in
  if Nat.leb 65 n && Nat.leb n 90 then ascii_of_nat (n + 32) else c.

Fixpoint drop_while (p : ascii -> bool) (l : list ascii) : list ascii :=
  match l with
  | [] => []
  | c :: rest => if p c then drop_while p rest else l
  end.

Fixpoint take_while (p : ascii -> bool) (l : list ascii) : list ascii :=
  match l with
  | [] => []
  | c :: rest => if p c then c :: take_while p rest else []
  end.

Definition strip (l : list ascii) : list ascii :=
  rev (drop_while is_space (rev (drop_while is_space l))).

(** *** [float()] on a mantissa *)

Inductive float_state : Type :=
| FStart | FSign | FInt | FDot | FFrac | FExp | FExpSign | FExpInt | FBad.

Definition float_step (st : float_state) (c : ascii) : float_state :=
  let d := is_digit c in
  let e := Ascii.eqb (lower c) "e"%char in
  let sg := Ascii.eqb c "+"%char || Ascii.eqb c "-"%char in
  let dot := Ascii.eqb c "."%char in
  match st with
  | FStart => if d then FInt else if sg then FSign else if dot then FDot else FBad
  | FSign => if d then FInt else if dot then FDot else FBad
  | FInt => if d then FInt else if dot then FFrac else if e then FExp else FBad
  | FDot => if d then FFrac else FBad
  | FFrac => if d then FFrac else if e then FExp else FBad
  | FExp => if d then FExpInt else if sg then FExpSign else FBad
  | FExpSign => if d then FExpInt else FBad
  | FExpInt => if d then FExpInt else FBad
  | FBad => FBad
  end.

(** Whether [float(s)] returns for a text of digits, signs, dots and
    exponent marks. *)
Definition float_ok (l : list ascii) : bool :=
  match fold_left float_step l FStart with
  | FInt | FFrac | FExpInt => true
  | _ => false
  end.

(** *** Rotation: the size parser *)

Definition is_mantissa_char (c : ascii) : bool :=
  is_digit c || Ascii.eqb (lower c) "e"%char || Ascii.eqb c "+"%char
  || Ascii.eqb c "-"%char || Ascii.eqb c "."%char.

Fixpoint index_of (c : ascii) (l : list ascii) (i : nat) : option nat :=
  match l with
  | [] => None
  | d :: rest => if Ascii.eqb c d then Some i else index_of c rest (S i)
  end.

Definition unit_power (c : ascii) : option nat :=
  index_of (lower c) (chars "kmgtpezy") 1%nat.

Definition is_b (c : ascii) : bool := Ascii.eqb (lower c) "b"%char.
Definition is_i (c : ascii) : bool := Ascii.eqb (lower c) "i"%char.
Definition small_b (c : ascii) : bool := Ascii.eqb c "b"%char.

(** The tail [([kmgtpezy])? (i)? (b)] of the pattern. *)
Definition parse_unit (l : list ascii) : option (nat * bool * bool) :=
  match l with
  | [b] => if is_b b then Some (0%nat, false, small_b b) else None
  | [x; b] =>
      if is_b b then
        if is_i x then Some (0%nat, true, small_b b)
        else match unit_power x with
             | Some u => Some (u, false, small_b b)
             | None => None
             end
      else None
  | [x; i; b] =>
      if is_b b && is_i i then
        match unit_power x with
        | Some u => Some (u, true, small_b b)
        | None => None
        end
      else None
  | _ => None
  end.

(** [parse_size]: [None] when the text is no size at all. *)
Definition parse_size (s : string) : option rotation :=
  let l := strip (chars s) in
  let m := take_while is_mantissa_char l in
  let rest := drop_while is_space (drop_while is_mantissa_char l) in
  match m, parse_unit rest with
  | _ :: _, Some (u, i, b) => Some (mk_rotation (text m) u i b)
  | _, _ => None
  end.

Definition is_ascii (s : string) : bool :=
  forallb (fun c => Nat.ltb (nat_of_ascii c) 128) (chars s).

Section Rotation.
Context {H : Host}.

(** The [rotation=] option of a file sink, for the texts the module
    builds.  A text ending in [" MB"] that is no size is no duration,
    frequency or time of day either, so the engine's further parsers are
    left out: every such text ends in the same [ValueError].  The
    patterns and [float()] above are those of ASCII; a text with other
    characters is the host's to read. *)
Definition make_rotation_function (s : string) : outcome rotation :=
  if is_ascii s then
    match parse_size s with
    | Some r => if float_ok (chars (rot_mantissa r)) then Returned r
                else Raised ValueError
    | None => Raised ValueError
    end
  else
    match size_beyond_ascii s with
    | Some r => Returned r
    | None => Raised ValueError
    end.
End Rotation.

Definition all_digits (l : list ascii) : bool :=
  match l with [] => false | _ => forallb is_digit l end.

Fixpoint digits_value (l : list ascii) (acc : Z) : Z :=
  match l with
  | [] => acc
  | c :: rest => digits_value rest (10 * acc + Z.of_nat (nat_of_ascii c - 48))
  end.

(** The limit in bytes, where the engine's float arithmetic is exact: a
    mantissa of digits only, whole bytes, a product below 2^53. *)
Definition rotation_limit (r : rotation) : option Z :=
  let m := chars (rot_mantissa r) in
  if all_digits m && negb (rot_bits r) then
    let v := digits_value m 0
             * (if rot_binary r then 1024 else 1000) ^ Z.of_nat (rot_power r) in
    if v <=? 2 ^ 53 then Some v else None
  else None.


(** *** Retention and compression *)

Inductive retention : Type :=
| RetainAll
| RetainCount (n : Z)
| RetainAge (duration : string).

Section EngineOptions.
Context {H : Host}.

(** The [retention=] option of a file sink. *)
Definition make_retention_function (v : pyval) : outcome retention :=
  match v with
  | PNone => Returned RetainAll
  | PStr s => if parse_duration_ok s then Returned (RetainAge s)
              else Raised ValueError
  | PBool b => Returned (RetainCount (if b then 1 else 0))
  | PInt n => Returned (RetainCount n)
  | _ => Raised TypeError
  end.
End EngineOptions.

Definition compression_formats : list string :=
  ["gz"; "bz2"; "xz"; "lzma"; "tar"; "tar.gz"; "tar.bz2"; "tar.xz"; "zip"].

(** The [compression=] option of a file sink; the engine trims the text
    first, which leaves the module's ["zip"] as it is. *)
Definition make_compression_function (s : string) : outcome string :=
  if existsb (String.eqb s) compression_formats then Returned s
  else Raised ValueError.

(* ================================================================= *)
(** ** The logging engine: records and their rendering *)

Record level : Type := mk_level { lv_name : string; lv_no : Z }.

Definition INFO : level := mk_level "INFO" 20.

(** A record as a sink's format sees it.  [r_name], [r_function] and
    [r_line] are read by the engine off the frame that made the logging
    call: the record's name is the [__name__] in that frame's globals.
    [r_extra] is the record's "extra" dict, which holds what [bind]
    attached to the handle. *)
Record record : Type := mk_record {
  r_time : datetime;
  r_level : level;
  r_name : string;
  r_function : string;
  r_line : Z;
  r_message : string;
  r_extra : list (string * pyval)
}.

(** *** Formats: fields in braces, colour markup in angle brackets *)

Inductive token : Type :=
| TText (s : string)
| TOpen (tag : string)
| TClose (tag : string)
| TField (name spec : string).

Inductive lex_mode : Type := LText | LTag | LField.

Definition flush_text (acc : list ascii) (k : list token) : list token :=
  match acc with
  | [] => k
  | _ => TText (text (rev acc)) :: k
  end.

Definition tag_token (acc : list ascii) : token :=
  match rev acc with
  | c :: name => if Ascii.eqb c slash then TClose (text name)
                 else TOpen (text (c :: name))
  | [] => TOpen ""
  end.

Definition field_token (acc : list ascii) : token :=
  let l := rev acc in
  let not_colon := fun c => negb (Ascii.eqb c ":"%char) in
  TField (text (take_while not_colon l))
         (text (tl (drop_while not_colon l))).

(** [acc] holds the characters of the piece being read, last first. *)
Fixpoint tokenize_from (mode : lex_mode) (acc : list ascii) (l : list ascii)
  : list token :=
  match l with
  | [] =>
      match mode with
      | LText => flush_text acc []
      | LTag => flush_text (acc ++ ["<"%char]) []
      | LField => flush_text (acc ++ ["{"%char]) []
      end
  | c :: rest =>
      match mode with
      | LText =>
          if Ascii.eqb c "{"%char then flush_text acc (tokenize_from LField [] rest)
          else if Ascii.eqb c "<"%char then flush_text acc (tokenize_from LTag [] rest)
          else tokenize_from LText (c :: acc) rest
      | LTag =>
          if Ascii.eqb c ">"%char then tag_token acc :: tokenize_from LText [] rest
          else if is_space c then tokenize_from LText (c :: acc ++ ["<"%char]) rest
          else if Ascii.eqb c "<"%char then
            flush_text (acc ++ ["<"%char]) (tokenize_from LTag [] rest)
          else tokenize_from LTag (c :: acc) rest
      | LField =>
          if Ascii.eqb c "}"%char then field_token acc :: tokenize_from LText [] rest
          else tokenize_from LField (c :: acc) rest
      end
  end.

Definition tokenize (format : string) : list token :=
  tokenize_from LText [] (chars format).

(** *** Format specifications *)

Fixpoint repeat_char (c : ascii) (n : nat) : string :=
  match n with
  | O => EmptyString
  | S k => String c (repeat_char c k)
  end.

Definition is_align (c : ascii) : bool :=
  Ascii.eqb c "<"%char || Ascii.eqb c ">"%char || Ascii.eqb c "^"%char.

(** Padding to [width] with [fill], aligned by [align]. *)
Definition pad (fill align : ascii) (width : list ascii) (s : string) : string :=
  let n := (Z.to_nat (digits_value width 0) - String.length s)%nat in
  if Ascii.eqb align ">"%char then repeat_char fill n ++ s
  else if Ascii.eqb align "^"%char then
    repeat_char fill (Nat.div n 2) ++ s ++ repeat_char fill (n - Nat.div n 2)
  else s ++ repeat_char fill n.

(** [format(s, spec)] for a [str] and a spec of the shape
    [[[fill]align][width]]; the module's formats use no other. *)
Definition format_str (spec : string) (s : string) : string :=
  match chars spec with
  | [] => s
  | f :: a :: w =>
      if is_align a && forallb is_digit w then pad f a w s
      else if is_align f && forallb is_digit (a :: w) then pad " "%char f (a :: w) s
      else if forallb is_digit (f :: a :: w) then pad " "%char "<"%char (f :: a :: w) s
      else s
  | [f] =>
      if is_digit f then pad " "%char "<"%char [f] s else s
  end.

Definition zero_pad (width : nat) (n : Z) : string :=
  let d := str_of_int n in
  repeat_char "0"%char (width - String.length d) ++ d.

(** The engine's date pattern, for the tokens the formats use. *)
Fixpoint format_time (spec : string) (t : datetime) : string :=
  match spec with
  | String "Y" (String "Y" (String "Y" (String "Y" rest))) =>
      zero_pad 4 (dt_year t) ++ format_time rest t
  | String "M" (String "M" rest) => zero_pad 2 (dt_month t) ++ format_time rest t
  | String "D" (String "D" rest) => zero_pad 2 (dt_day t) ++ format_time rest t
  | String "H" (String "H" rest) => zero_pad 2 (dt_hour t) ++ format_time rest t
  | String "m" (String "m" rest) => zero_pad 2 (dt_minute t) ++ format_time rest t
  | String "s" (String "s" rest) => zero_pad 2 (dt_second t) ++ format_time rest t
  | String "S" (String "S" (String "S" rest)) =>
      zero_pad 3 (dt_microsecond t / 1000) ++ format_time rest t
  | String c rest => String c (format_time rest t)
  | EmptyString => EmptyString
  end.

(** The value a field of a format takes from a record.  No field reads
    [r_extra] unless the format names it as [extra[key]]. *)
Definition render_field (r : record) (name spec : string) : string :=
  if String.eqb name "time" then format_time spec (r_time r)
  else if String.eqb name "level" then format_str spec (lv_name (r_level r))
  else if String.eqb name "name" then format_str spec (r_name r)
  else if String.eqb name "function" then format_str spec (r_function r)
  else if String.eqb name "line" then format_str spec (str_of_int (r_line r))
  else if String.eqb name "message" then format_str spec (r_message r)
  else
    match chars name with
    | "e" :: "x" :: "t" :: "r" :: "a" :: "[" :: key =>
        match assoc (text (removelast key)) (r_extra r) with
        | Some v => format_str spec (py_str v)
        | None => EmptyString
        end
    | _ => EmptyString
    end%char.

(** *** Colours *)

Definition ansi (code : string) : string :=
  String (ascii_of_nat 27) ("[" ++ code ++ "m").

Definition colour_codes : list (string * string) :=
  [("bold", "1"); ("red", "31"); ("green", "32"); ("yellow", "33");
   ("blue", "34"); ("cyan", "36"); ("RED", "41")].

Definition level_colours : list (string * list string) :=
  [("TRACE", ["cyan"; "bold"]); ("DEBUG", ["blue"; "bold"]); ("INFO", ["bold"]);
   ("SUCCESS", ["green"; "bold"]); ("WARNING", ["yellow"; "bold"]);
   ("ERROR", ["red"; "bold"]); ("CRITICAL", ["RED"; "bold"])].

Definition colour_of (tag : string) : string :=
  match assoc tag colour_codes with
  | Some c => ansi c
  | None => EmptyString
  end.

(** The escape sequence a tag opens with; [<level>] takes the colour of
    the record's level. *)
Definition open_code (lv : level) (tag : string) : string :=
  if String.eqb tag "level" then
    match assoc (lv_name lv) level_colours with
    | Some tags => String.concat "" (map colour_of tags)
    | None => EmptyString
    end
  else colour_of tag.

(** Rendering with colours: a closing tag resets the terminal and opens
    again the tags still open ([opened], innermost first). *)
Fixpoint render_colour (r : record) (opened : list string) (ts : list token)
  : string :=
  match ts with
  | [] => EmptyString
  | TText s :: rest => s ++ render_colour r opened rest
  | TField n sp :: rest => render_field r n sp ++ render_colour r opened rest
  | TOpen tag :: rest =>
      let code := open_code (r_level r) tag in
      code ++ render_colour r (code :: opened) rest
  | TClose _ :: rest =>
      ansi "0" ++ String.concat "" (rev (tl opened))
      ++ render_colour r (tl opened) rest
  end.

(** Rendering without colours: the markup is dropped. *)
Fixpoint render_plain (r : record) (ts : list token) : string :=
  match ts with
  | [] => EmptyString
  | TText s :: rest => s ++ render_plain r rest
  | TField n sp :: rest => render_field r n sp ++ render_plain r rest
  | TOpen _ :: rest => render_plain r rest
  | TClose _ :: rest => render_plain r rest
  end.

(** The text a sink is handed for a record: the format, then the line
    end the engine adds (a record without an exception adds no more). *)
Definition render (format : string) (colorize : bool) (r : record) : string :=
  (if colorize then render_colour r [] (tokenize format)
   else render_plain r (tokenize format)) ++ nl.

(* ================================================================= *)
(** ** The logging engine: handlers and the process-wide logger *)

Inductive sink : Type :=
| StreamSink (st : stream)
| FileSink (path : string) (rotate : rotation) (keep : retention)
           (compress : string).

Record handler : Type := mk_handler {
  h_sink : sink;
  h_levelno : Z;
  h_format : string;
  h_colorize : bool
}.

(** The engine's core: the handlers by identifier, in the order they were
    added, and the identifier the next [add] takes. *)
Record core : Type := mk_core {
  handlers : list (nat * handler);
  handlers_count : nat
}.

Definition sinks (c : core) : list handler := map snd (handlers c).

Definition sink_target (h : handler) : target :=
  match h_sink h with
  | StreamSink st => ToStream st
  | FileSink path _ _ _ => ToFile path
  end.

(** A handle on the logger: the core is shared, the handle owns only the
    values bound to it. *)
Record logger_handle : Type := mk_logger { extra : list (string * pyval) }.

(** [from loguru import logger] *)
Definition logger : logger_handle := mk_logger [].

(** A dict taking one more item: an old key keeps its place. *)
Fixpoint dict_set (k : string) (v : pyval) (l : list (string * pyval))
  : list (string * pyval) :=
  match l with
  | [] => [(k, v)]
  | (k', v') :: rest =>
      if String.eqb k k' then (k, v) :: rest else (k', v') :: dict_set k v rest
  end.

(** [logger.bind] with keyword arguments [kwargs]: a new handle whose
    extra values are the old ones updated with them.  The engine binds
    into the "extra" dict of the records, whatever the keys are called;
    no field of a record itself is set. *)
Definition logger_bind (lg : logger_handle) (kwargs : list (string * pyval))
  : logger_handle :=
  mk_logger (fold_left (fun d kv => dict_set (fst kv) (snd kv) d) kwargs (extra lg)).

(** The frame a logging call is made from. *)
Record frame : Type := mk_frame {
  f_module : string;      (* [__name__] in the frame's globals *)
  f_function : string;
  f_lineno : Z
}.

(** What the module does to the world outside, in order. *)
Inductive event : Type :=
| EvExists (p : string)
| EvRead (p : string)
| EvMkdir (p : string)
| EvOpen (p : string)
| EvWrite (t : target) (line : string).

Record world {H : Host} : Type := mk_world {
  w_os : os_state;
  w_core : core;
  w_trace : list event
}.
Arguments mk_world {H} _ _ _.

(** A computation: it returns or raises, and leaves a world behind. *)
Definition M {H : Host} (A : Type) : Type := world -> outcome A * world.

Definition ret {H : Host} {A : Type} (a : A) : M A :=
  fun w => (Returned a, w).

Definition raise {H : Host} {A : Type} (e : exn) : M A :=
  fun w => (Raised e, w).

Definition and_then {H : Host} {A B : Type} (c : M A) (k : A -> M B) : M B :=
  fun w =>
    match c w with
    | (Returned a, w') => k a w'
    | (Raised e, w') => (Raised e, w')
    end.

Notation "x <- c ;; k" := (and_then c (fun x => k))
  (at level 61, c at next level, right associativity).
Notation "c ;;; k" := (and_then c (fun _ => k))
  (at level 61, right associativity).

Definition lift {H : Host} {A : Type} (o : outcome A) : M A :=
  fun w => (o, w).

Definition log_event {H : Host} (e : event) (w : world) : world :=
  mk_world (w_os w) (w_core w) (w_trace w ++ [e]).

Definition set_os {H : Host} (s : os_state) (w : world) : world :=
  mk_world s (w_core w) (w_trace w).

Definition set_core {H : Host} (c : core) (w : world) : world :=
  mk_world (w_os w) c (w_trace w).

(** *** The host's operations as computations *)

Definition exists_ {H : Host} (p : string) : M bool :=
  fun w =>
    let w' := log_event (EvExists p) w in
    match path_exists p (w_os w) with
    | Answered found => (Returned found, w')
    | Refused e => (Raised e, w')
    end.

(** [with open(p, 'r') as f: yaml.safe_load(f)] *)
Definition open_safe_load {H : Host} (p : string) : M pyval :=
  fun w =>
    let w' := log_event (EvRead p) w in
    match read_text p (w_os w) with
    | inl e => (Raised e, w')
    | inr doc =>
        match safe_load doc with
        | Some v => (Returned v, w')
        | None => (Raised YAMLError, w')
        end
    end.

Definition mkdir {H : Host} (p : string) : M unit :=
  fun w =>
    let w' := log_event (EvMkdir p) w in
    match mkdir_parents p (w_os w) with
    | inl e => (Raised e, w')
    | inr s => (Returned tt, set_os s w')
    end.

Definition has_brace (s : string) : bool :=
  contains_char "{"%char s || contains_char "}"%char s.

(** The file a sink's path names: the path itself when it has no braces
    to fill. *)
Definition create_path {H : Host} (path : string) : M string :=
  fun w =>
    if has_brace path then
      match expand_path path (w_os w) with
      | inl e => (Raised e, w)
      | inr file => (Returned file, w)
      end
    else (Returned path, w).

Definition create_file {H : Host} (file : string) : M unit :=
  fun w =>
    let w' := log_event (EvOpen file) w in
    match open_append file (w_os w) with
    | inl e => (Raised e, w')
    | inr s => (Returned tt, set_os s w')
    end.

(** One sink receiving one text. *)
Definition write {H : Host} (t : target) (line : string) (w : world) : world :=
  log_event (EvWrite t line) (set_os (write_sink t line (w_os w)) w).

(** *** The logger's methods *)

(** [obj.get(key, default)]: only a dict has the method. *)
Definition py_get (obj : pyval) (key : string) (default : pyval) : outcome pyval :=
  match obj with
  | PDict items =>
      Returned (match dict_lookup key items with
                | Some v => v
                | None => default
                end)
  | _ => Raised AttributeError
  end.

(** [Path(v)]: a [str] is taken, any other loaded value is refused. *)
Definition Path (v : pyval) : outcome string :=
  match v with
  | PStr s => Returned s
  | _ => Raised TypeError
  end.

(** [logger.remove()]: every handler is stopped and dropped. *)
Definition logger_remove {H : Host} : M unit :=
  fun w => (Returned tt, set_core (mk_core [] (handlers_count (w_core w))) w).

(** The first step of every [add]: an identifier is taken, whether or not
    the rest succeeds. *)
Definition next_handler_id {H : Host} : M nat :=
  fun w =>
    let c := w_core w in
    (Returned (handlers_count c),
     set_core (mk_core (handlers c) (S (handlers_count c))) w).

Definition register {H : Host} (id : nat) (h : handler) : M unit :=
  fun w =>
    let c := w_core w in
    (Returned tt, set_core (mk_core (handlers c ++ [(id, h)]) (handlers_count c)) w).

(** [logger.add(stream, format=, level=, colorize=)] *)
Definition logger_add_stream {H : Host}
    (st : stream) (format : string) (level : pyval) (colorize : bool) : M nat :=
  id <- next_handler_id ;;
  levelno <- lift (check_level level) ;;
  register id (mk_handler (StreamSink st) levelno format colorize) ;;;
  ret id.

(** Whether the file sink cannot read the braces of its path.  The sink
    fills the braces in with the same reader it reads them with, so a
    path that is filled in has braces that can be read: what the host
    says of the braces counts only where the expansion fails. *)
Definition braces_refused {H : Host} (path : string) (s : os_state) : bool :=
  has_brace path && negb (path_braces_ok path)
  && match expand_path path s with inl _ => true | inr _ => false end.

(** The file sink reading the braces of its path, to know the names its
    files will take. *)
Definition make_glob_patterns {H : Host} (path : string) : M unit :=
  fun w =>
    if braces_refused path (w_os w) then (Raised ValueError, w)
    else (Returned tt, w).

(** The file sink's constructor: the braces of the path are read, then
    the options, then the file is opened. *)
Definition file_sink {H : Host}
    (path : string) (rotation : string) (retention : pyval) (compression : string)
  : M sink :=
  make_glob_patterns path ;;;
  rotate <- lift (make_rotation_function rotation) ;;
  keep <- lift (make_retention_function retention) ;;
  compress <- lift (make_compression_function compression) ;;
  file <- create_path path ;;
  create_file file ;;;
  ret (FileSink path rotate keep compress).

(** [logger.add(sink, format=, level=, rotation=, retention=,
    compression=)] for a sink that is a loaded value: a [str] is the path
    of a file sink, which is not colorized unless asked; no other loaded
    value is a sink. *)
Definition logger_add_file {H : Host}
    (sink_arg : pyval) (format : string) (level : pyval)
    (rotation : string) (retention : pyval) (compression : string) : M nat :=
  id <- next_handler_id ;;
  snk <- match sink_arg with
         | PStr path => file_sink path rotation retention compression
         | _ => raise TypeError
         end ;;
  levelno <- lift (check_level level) ;;
  register id (mk_handler snk levelno format false) ;;;
  ret id.

(** A handler receiving a record: below its level the record is dropped,
    else it is rendered and written to the sink. *)
Definition emit {H : Host} (r : record) (w : world) (ih : nat * handler) : world :=
  let h := snd ih in
  if h_levelno h <=? lv_no (r_level r)
  then write (sink_target h) (render (h_format h) (h_colorize h) r) w
  else w.

(** A logging call through a handle, made from [caller]: one record, sent
    to every handler in turn.  It never raises. *)
Definition logger_log {H : Host}
    (lg : logger_handle) (lv : level) (caller : frame) (message : string) : M unit :=
  fun w =>
    let r := mk_record (now (w_os w)) lv (f_module caller) (f_function caller)
                       (f_lineno caller) message (extra lg) in
    (Returned tt, fold_left (emit r) (handlers (w_core w)) w).

Definition logger_info {H : Host} (lg : logger_handle) :=
  logger_log lg INFO.

(* ================================================================= *)
(** ** The module: [setup_logging] and [get_logger] *)

Definition console_format : string :=
  "<green>{time:YYYY-MM-DD HH:mm:ss}</green> | <level>{level: <8}</level> | <cyan>{name}</cyan>:<cyan>{function}</cyan>:<cyan>{line}</cyan> - <level>{message}</level>".

Definition file_format : string :=
  "{time:YYYY-MM-DD HH:mm:ss} | {level: <8} | {name}:{function}:{line} - {message}".

(** A parameter with a default: the default is the value the [def]
    statement computed when the module was loaded. *)
Definition default_arg {A : Type} (given : option A) (default : A) : A :=
  match given with
  | Some a => a
  | None => default
  end.

(** [def setup_logging(config_path: str = "config.yaml")], lines 7-52. *)
Definition setup_logging {H : Host} (config_path : option string)
  : M logger_handle :=
  let config_path := default_arg config_path "config.yaml" in
  (* Load configuration *)
  let config_file := config_path in
  found <- exists_ config_file ;;
  log_config <- (if found : bool then
                   config <- open_safe_load config_file ;;
                   lift (py_get config "logging" (PDict []))
                 else ret (PDict [])) ;;
  (* Extract logging settings with defaults *)
  log_level <- lift (py_get log_config "level" (PStr "INFO")) ;;
  log_file <- lift (py_get log_config "file" (PStr "logs/bot.log")) ;;
  max_size_mb <- lift (py_get log_config "max_size_mb" (PInt 10)) ;;
  backup_count <- lift (py_get log_config "backup_count" (PInt 5)) ;;
  (* Remove default logger *)
  logger_remove ;;;
  (* Add console logger with color *)
  logger_add_stream Stdout console_format log_level true ;;;
  (* Ensure log directory exists *)
  log_path <- lift (Path log_file) ;;
  mkdir (path_parent log_path) ;;;
  (* Add file logger with rotation *)
  logger_add_file log_file file_format log_level
                  (py_str max_size_mb ++ " MB") backup_count "zip" ;;;
  logger_info logger (mk_frame __name__ "setup_logging" 51)
              ("Logging initialized: level=" ++ py_str log_level
               ++ ", file=" ++ py_str log_file) ;;;
  ret logger.

(** [def get_logger(name: str = __name__)], lines 55-59. *)
Definition get_logger {H : Host} (name : option string) : logger_handle :=
  let name := default_arg name __name__ in
  logger_bind logger [("name", PStr name)].

(** *** The two halves of [setup_logging] on their own *)

Record settings : Type := mk_settings {
  log_level : pyval;
  log_file : pyval;
  max_size_mb : pyval;
  backup_count : pyval
}.

Definition default_settings : settings :=
  mk_settings (PStr "INFO") (PStr "logs/bot.log") (PInt 10) (PInt 5).

(** Lines 12-24: the settings the call works with. *)
Definition read_settings {H : Host} (config_path : option string) : M settings :=
  let config_file := default_arg config_path "config.yaml" in
  found <- exists_ config_file ;;
  log_config <- (if found : bool then
                   config <- open_safe_load config_file ;;
                   lift (py_get config "logging" (PDict []))
                 else ret (PDict [])) ;;
  lv <- lift (py_get log_config "level" (PStr "INFO")) ;;
  fl <- lift (py_get log_config "file" (PStr "logs/bot.log")) ;;
  sz <- lift (py_get log_config "max_size_mb" (PInt 10)) ;;
  bc <- lift (py_get log_config "backup_count" (PInt 5)) ;;
  ret (mk_settings lv fl sz bc).

(** Lines 27-52: the sinks replaced, the first record sent. *)
Definition install_sinks {H : Host} (s : settings) : M logger_handle :=
  logger_remove ;;;
  logger_add_stream Stdout console_format (log_level s) true ;;;
  log_path <- lift (Path (log_file s)) ;;
  mkdir (path_parent log_path) ;;;
  logger_add_file (log_file s) file_format (log_level s)
                  (py_str (max_size_mb s) ++ " MB") (backup_count s) "zip" ;;;
  logger_info logger (mk_frame __name__ "setup_logging" 51)
              ("Logging initialized: level=" ++ py_str (log_level s)
               ++ ", file=" ++ py_str (log_file s)) ;;;
  ret logger.

(** The handlers a completed call leaves, given its settings' readings. *)
Definition console_handler (levelno : Z) : handler :=
  mk_handler (StreamSink Stdout) levelno console_format true.

Definition file_handler (path : string) (rotate : rotation)
    (keep : retention) (levelno : Z) : handler :=
  mk_handler (FileSink path rotate keep "zip") levelno file_format false.

(** The lines a trace shows written to a target. *)
Fixpoint written_to (t : target -> bool) (tr : list event) : list string :=
  match tr with
  | [] => []
  | EvWrite t' line :: rest =>
      if t t' then line :: written_to t rest else written_to t rest
  | _ :: rest => written_to t rest
  end.

Definition is_console (t : target) : bool :=
  match t with ToStream _ => true | ToFile _ => false end.

(** How often a trace shows an operation on the file system tried. *)
Definition count_events (p : event -> bool) (tr : list event) : nat :=
  List.length (filter p tr).

Definition is_mkdir (e : event) : bool :=
  match e with EvMkdir _ => true | _ => false end.
Definition is_open (e : event) : bool :=
  match e with EvOpen _ => true | _ => false end.

(** *** What the engine does with the options of a size-and-count sink *)










Definition is_file_target (t : target) : bool :=
  match t with ToFile _ => true | ToStream _ => false end.

(** Whether [needle] occurs in [hay]. *)
Fixpoint occurs_in (needle hay : string) : bool :=
  String.prefix needle hay ||
  match hay with
  | EmptyString => false
  | String _ rest => occurs_in needle rest
  end.

(** The name bound to a handle, if any. *)
Definition bound_name (lg : logger_handle) : option pyval :=
  assoc "name" (extra lg).

(* ================================================================= *)
(** ** A host in memory

    A small file system, a YAML reader that knows a handful of documents
    and a clock that stands still: enough to run the module. *)

Record mem_fs : Type := mk_mem_fs {
  m_dirs : list string;
  m_files : list (string * string);
  m_denied : list string      (* paths nothing may be created at *)
}.

Definition mem (p : string) (l : list string) : bool :=
  existsb (String.eqb p) l.

Definition mem_exists (p : string) (s : mem_fs) : bool :=
  mem p (m_dirs s) || mem p (map fst (m_files s)).

Definition mem_read_text (p : string) (s : mem_fs) : exn + string :=
  match assoc p (m_files s) with
  | Some doc => inr doc
  | None => inl (OSError (if mem p (m_dirs s) then 21 else 2))
  end.

Definition mem_documents : list (string * pyval) :=
  [("", PNone);
   ("- a", PList [PStr "a"]);
   ("bot: {}", PDict [(PStr "bot", PDict [])]);
   ("logging: {}", PDict [(PStr "logging", PDict [])]);
   ("logging: {level: DEBUG, file: out/run.log, max_size_mb: 3, backup_count: 2}",
    PDict [(PStr "logging",
            PDict [(PStr "level", PStr "DEBUG"); (PStr "file", PStr "out/run.log");
                   (PStr "max_size_mb", PInt 3); (PStr "backup_count", PInt 2)])])].

Definition mem_safe_load (doc : string) : option pyval :=
  assoc doc mem_documents.

Definition mem_mkdir (p : string) (s : mem_fs) : exn + mem_fs :=
  if mem p (map fst (m_files s)) then inl (OSError 17)
  else if mem p (m_denied s) then inl (OSError 13)
  else inr (mk_mem_fs (p :: m_dirs s) (m_files s) (m_denied s)).

Definition mem_open_append (f : string) (s : mem_fs) : exn + mem_fs :=
  if mem f (m_dirs s) then inl (OSError 21)
  else if mem f (m_denied s) then inl (OSError 13)
  else inr (mk_mem_fs (m_dirs s)
              (match assoc f (m_files s) with
               | Some _ => m_files s
               | None => (f, "") :: m_files s
               end)
              (m_denied s)).

Fixpoint append_to (f line : string) (files : list (string * string))
  : list (string * string) :=
  match files with
  | [] => []
  | (g, doc) :: rest =>
      if String.eqb f g then (g, doc ++ line) :: rest
      else (g, doc) :: append_to f line rest
  end.

Definition mem_write (t : target) (line : string) (s : mem_fs) : mem_fs :=
  match t with
  | ToFile f => mk_mem_fs (m_dirs s) (append_to f line (m_files s)) (m_denied s)
  | ToStream _ => s
  end.

(** The braces of a path as the host in memory reads them: doubled
    braces are literal, a "{" opens a field that runs to the next "}",
    and a brace left alone is refused.  (Fields nested in a field's
    format are beyond it.) *)
Fixpoint braces_pair_up (in_field : bool) (l : list ascii) : bool :=
  match l with
  | [] => negb in_field
  | c :: rest =>
      if in_field then braces_pair_up (negb (Ascii.eqb c "}")) rest
      else if Ascii.eqb c "{" then
        match rest with
        | d :: rest' =>
            if Ascii.eqb d "{" then braces_pair_up false rest'
            else braces_pair_up true rest
        | [] => false
        end
      else if Ascii.eqb c "}" then
        match rest with
        | d :: rest' => Ascii.eqb d "}" && braces_pair_up false rest'
        | [] => false
        end
      else braces_pair_up false rest
  end.

Definition mem_braces_ok (p : string) : bool := braces_pair_up false (chars p).

(** The host in memory fills no field in: a path whose braces it can
    read is its own expansion. *)
Definition mem_expand (p : string) (s : mem_fs) : exn + string :=
  if mem_braces_ok p then inr p else inl ValueError.

(** The one size text beyond ASCII that the host in memory knows: "3 MB"
    with the digit three of the Arabic script (U+0663, two bytes), read as
    three megabytes, the mantissa given in ASCII digits. *)
Definition arabic_three_mb : string :=
  String (ascii_of_nat 217) (String (ascii_of_nat 163) " MB").

Definition mem_size_beyond_ascii (s : string) : option rotation :=
  if String.eqb s arabic_three_mb then Some (mk_rotation "3" 2 false false)
  else None.

Definition mem_host : Host := {|
  os_state := mem_fs;
  path_exists := fun p s => Answered (mem_exists p s);
  read_text := mem_read_text;
  safe_load := mem_safe_load;
  is_dir := fun p s => mem p (m_dirs s);
  mkdir_parents := mem_mkdir;
  expand_path := mem_expand;
  open_append := mem_open_append;
  write_sink := mem_write;
  now := fun _ => mk_datetime 2024 1 5 9 3 7 0;
  parse_duration_ok := fun s => String.eqb s "1 week";
  path_braces_ok := mem_braces_ok;
  size_beyond_ascii := mem_size_beyond_ascii;
  __name__ := "src.utils.logger"
|}.

(** The engine as the import leaves it: one handler, on standard error. *)
Definition core_at_import : core :=
  mk_core [(0%nat, mk_handler (StreamSink Stderr) 10
             "<green>{time:YYYY-MM-DD HH:mm:ss.SSS}</green> | <level>{level: <8}</level> | <cyan>{name}</cyan>:<cyan>{function}</cyan>:<cyan>{line}</cyan> - <level>{message}</level>"
             true)] 1.

Definition mem_world (s : mem_fs) : @world mem_host :=
  mk_world (H := mem_host) s core_at_import [].

(** Some file systems to start from. *)
Definition fs_empty : mem_fs := mk_mem_fs [] [] [].
Definition fs_with_config (doc : string) : mem_fs :=
  mk_mem_fs [] [("config.yaml", doc)] [].
Definition fs_logs_denied : mem_fs := mk_mem_fs [] [] ["logs"].
Definition fs_log_file_denied : mem_fs := mk_mem_fs [] [] ["logs/bot.log"].

(* ================================================================= *)
(** ** Readings of the module used in the statements below *)

Definition then_ {A B : Type} (o : outcome A) (k : A -> outcome B) : outcome B :=
  match o with
  | Returned a => k a
  | Raised e => Raised e
  end.

(** Lines 16-24 on a loaded document: the settings it gives. *)
Definition settings_of (config : pyval) : outcome settings :=
  then_ (py_get config "logging" (PDict [])) (fun log_config =>
  then_ (py_get log_config "level" (PStr "INFO")) (fun lv =>
  then_ (py_get log_config "file" (PStr "logs/bot.log")) (fun fl =>
  then_ (py_get log_config "max_size_mb" (PInt 10)) (fun sz =>
  then_ (py_get log_config "backup_count" (PInt 5)) (fun bc =>
  Returned (mk_settings lv fl sz bc)))))).

(** The core a completed call leaves: the two handlers, numbered from the
    count [n] it found. *)
Definition installed_core (n : nat) (lvl : Z) (path : string)
    (rot : rotation) (keep : retention) : core :=
  mk_core [(n, console_handler lvl); (S n, file_handler path rot keep lvl)]
          (S (S n)).

(** The record line 51 sends. *)
Definition first_record {H : Host} (s : settings) (t : datetime) : record :=
  mk_record t INFO __name__ "setup_logging" 51
    ("Logging initialized: level=" ++ py_str (log_level s)
      ++ ", file=" ++ py_str (log_file s)) [].


(* ================================================================= *)
(** ** Further readings: the line of a record, more documents *)

(** The line the two formats lay out, colours apart. *)
Definition line_layout (r : record) : string :=
  (zero_pad 4 (dt_year (r_time r)) ++ "-" ++ zero_pad 2 (dt_month (r_time r))
   ++ "-" ++ zero_pad 2 (dt_day (r_time r)) ++ " "
   ++ zero_pad 2 (dt_hour (r_time r)) ++ ":" ++ zero_pad 2 (dt_minute (r_time r))
   ++ ":" ++ zero_pad 2 (dt_second (r_time r))
   ++ " | " ++ lv_name (r_level r)
   ++ repeat_char " " (8 - String.length (lv_name (r_level r)))
   ++ " | " ++ r_name r ++ ":" ++ r_function r ++ ":" ++ str_of_int (r_line r)
   ++ " - " ++ r_message r ++ nl)%string.

(** The two events a record leaves when it passes the level [lvl] of
    the installed handlers, none when it does not. *)
Definition installed_writes (lvl : Z) (path : string) (r : record) : list event :=
  if lvl <=? lv_no (r_level r)
  then [EvWrite (ToStream Stdout) (render console_format true r);
        EvWrite (ToFile path) (render file_format false r)]
  else [].

(** [section.get(key, default)] on the items of a dict. *)
Definition get_or (section : list (pyval * pyval)) (key : string)
    (default : pyval) : pyval :=
  match dict_lookup key section with
  | Some v => v
  | None => default
  end.

(** A host in memory that reads the documents of a table. *)
Definition host_reading (documents : list (string * pyval)) : Host := {|
  os_state := mem_fs;
  path_exists := fun p s => Answered (mem_exists p s);
  read_text := mem_read_text;
  safe_load := fun doc => assoc doc documents;
  is_dir := fun p s => mem p (m_dirs s);
  mkdir_parents := mem_mkdir;
  expand_path := mem_expand;
  open_append := mem_open_append;
  write_sink := mem_write;
  now := fun _ => mk_datetime 2024 1 5 9 3 7 0;
  parse_duration_ok := fun s => String.eqb s "1 week";
  path_braces_ok := mem_braces_ok;
  size_beyond_ascii := fun _ => None;
  __name__ := "src.utils.logger"
|}.

Definition more_documents : list (string * pyval) :=
  [("logging:", PDict [(PStr "logging", PNone)]);
   ("logging: {level: info}",
    PDict [(PStr "logging", PDict [(PStr "level", PStr "info")])]);
   ("logging: {level: WARNING}",
    PDict [(PStr "logging", PDict [(PStr "level", PStr "WARNING")])]);
   ("logging: {file: 7}",
    PDict [(PStr "logging", PDict [(PStr "file", PInt 7)])]);
   ("logging: {max_size_mb: big}",
    PDict [(PStr "logging", PDict [(PStr "max_size_mb", PStr "big")])])].

Definition world_with_config (doc : string) : @world (host_reading more_documents) :=
  mk_world (H := host_reading more_documents) (fs_with_config doc) core_at_import [].

(** A directory where the configuration file is looked for. *)
Definition fs_config_is_directory : mem_fs := mk_mem_fs ["config.yaml"] [] [].

(** A configuration that asks for a negative count of backups, one
    whose path has a brace left open and whose count is a fraction, and
    five archives, oldest first, for the retention to look at. *)
Definition option_documents : list (string * pyval) :=
  [("logging: {backup_count: -1}",
    PDict [(PStr "logging", PDict [(PStr "backup_count", PInt (-1))])]);
   ("logging: {file: 'logs/{bot.log', backup_count: 2.5}",
    PDict [(PStr "logging",
            PDict [(PStr "file", PStr "logs/{bot.log");
                   (PStr "backup_count", POther "2.5" "2.5")])])].


(** What reading the settings does outside: the lookup of the
    configuration file, and one read where the lookup found it. *)
Definition config_reads {H : Host} (p : string) (s : os_state) : list event :=
  match path_exists p s with
  | Answered true => [EvExists p; EvRead p]
  | _ => [EvExists p]
  end.

(** A host in memory that refuses to look up what lies under a denied
    directory. *)
Definition mem_lookup (p : string) (s : mem_fs) : lookup :=
  if mem (path_parent p) (m_denied s) then Refused (OSError 13)
  else Answered (mem_exists p s).

Definition host_refusing_lookups : Host := {|
  os_state := mem_fs;
  path_exists := mem_lookup;
  read_text := mem_read_text;
  safe_load := mem_safe_load;
  is_dir := fun p s => mem p (m_dirs s);
  mkdir_parents := mem_mkdir;
  expand_path := mem_expand;
  open_append := mem_open_append;
  write_sink := mem_write;
  now := fun _ => mk_datetime 2024 1 5 9 3 7 0;
  parse_duration_ok := fun s => String.eqb s "1 week";
  path_braces_ok := mem_braces_ok;
  size_beyond_ascii := fun _ => None;
  __name__ := "src.utils.logger"
|}.

Definition fs_etc_denied : mem_fs := mk_mem_fs [] [] ["etc/bot"].

(* ================================================================= *)
(** * Proofs *)

Local Open Scope list_scope.

(** ** [setup_logging] is its two halves in sequence *)

Section Sequencing.
Context {H : Host}.

Lemma and_then_returned {A B} (c : M A) (k : A -> M B) w a w' :
  c w = (Returned a, w') -> and_then c k w = k a w'.
Proof. intros E. unfold and_then. rewrite E. reflexivity. Qed.

Lemma and_then_raised {A B} (c : M A) (k : A -> M B) w e w' :
  c w = (Raised e, w') -> and_then c k w = (Raised e, w').
Proof. intros E. unfold and_then. rewrite E. reflexivity. Qed.

Lemma and_then_assoc {A B C} (c : M A) (k : A -> M B) (j : B -> M C) w :
  and_then (and_then c k) j w = and_then c (fun a => and_then (k a) j) w.
Proof. unfold and_then. destruct (c w) as [[a|e] w']; reflexivity. Qed.

Lemma and_then_ext {A B} (c : M A) (k k' : A -> M B) w :
  (forall a w', k a w' = k' a w') -> and_then c k w = and_then c k' w.
Proof.
  intros E. unfold and_then. destruct (c w) as [[a|e] w']; [apply E|reflexivity].
Qed.

Lemma setup_logging_blocks config_path w :
  setup_logging config_path w
  = and_then (read_settings config_path) install_sinks w.
Proof.
  unfold setup_logging, read_settings.
  do 6 (rewrite and_then_assoc; apply and_then_ext; intros; cbv beta).
  reflexivity.
Qed.
End Sequencing.

(** Opening the operations of a call, and simplifying a hypothesis
    without opening texts, formats and option parsers. *)
Ltac unfold_ops :=
  unfold install_sinks, logger_add_file, logger_add_stream, file_sink,
    make_glob_patterns, logger_info, logger_log, logger_remove,
    next_handler_id, register, mkdir, create_path, create_file, exists_, open_safe_load,
    and_then, lift, ret, raise, set_core, set_os, log_event in *.

Ltac sim E :=
  cbn -[render py_str path_parent console_format file_format
        make_rotation_function make_retention_function check_level
        has_brace braces_refused emit fold_left String.append] in E.

(** ** What the second half leaves, by outcome *)

Section Installing.
Context {H : Host}.

Lemma braces_pass path s file :
  (if has_brace path then expand_path path s = inr file else file = path) ->
  braces_refused path s = false.
Proof.
  unfold braces_refused. destruct (has_brace path); [|reflexivity].
  intros ->. now rewrite andb_false_r.
Qed.

Lemma install_sinks_returned s w lg w' :
  install_sinks s w = (Returned lg, w') ->
  exists lvl path rot keep file s1 s2,
    check_level (log_level s) = Returned lvl
    /\ log_file s = PStr path
    /\ make_rotation_function (py_str (max_size_mb s) ++ " MB")%string = Returned rot
    /\ make_retention_function (backup_count s) = Returned keep
    /\ mkdir_parents (path_parent path) (w_os w) = inr s1
    /\ (if has_brace path then expand_path path s1 = inr file else file = path)
    /\ open_append file s1 = inr s2
    /\ lg = logger
    /\ w' = fold_left (emit (first_record s (now s2)))
              (handlers (installed_core (handlers_count (w_core w)) lvl path rot keep))
              (mk_world s2
                 (installed_core (handlers_count (w_core w)) lvl path rot keep)
                 (w_trace w ++ [EvMkdir (path_parent path); EvOpen file])).
Proof.
  intros E. unfold_ops. unfold Path in E.
  destruct (check_level (log_level s)) as [lvl|e] eqn:Hlvl; sim E; [|discriminate].
  destruct (log_file s) as [| | |path| | |] eqn:Hfile; sim E; try discriminate.
  destruct (mkdir_parents _ _) as [e|s1] eqn:Hmk; sim E; [discriminate|].
  destruct (braces_refused path s1) eqn:Hbraces; sim E; [discriminate|].
  destruct (make_rotation_function _) as [rot|e] eqn:Hrot; sim E; [|discriminate].
  destruct (make_retention_function _) as [keep|e] eqn:Hkeep; sim E; [|discriminate].
  assert (Hfileopen : exists file s2,
            (if has_brace path then expand_path path s1 = inr file else file = path)
            /\ open_append file s1 = inr s2
            /\ (Returned lg, w') =
               (Returned logger,
                fold_left (emit (first_record s (now s2)))
                  (handlers (installed_core (handlers_count (w_core w)) lvl path rot keep))
                  (mk_world s2
                     (installed_core (handlers_count (w_core w)) lvl path rot keep)
                     (w_trace w ++ [EvMkdir (path_parent path); EvOpen file])))).
  { destruct (has_brace path).
    - destruct (expand_path path s1) as [e|file] eqn:Hexp; sim E; [discriminate|].
      destruct (open_append file s1) as [e|s2] eqn:Hop; sim E; [discriminate|].
      exists file, s2. split; [reflexivity|]. split; [exact Hop|]. rewrite <- E.
      unfold first_record. rewrite Hfile, <- app_assoc. reflexivity.
    - sim E.
      destruct (open_append path s1) as [e|s2] eqn:Hop; sim E; [discriminate|].
      exists path, s2. split; [reflexivity|]. split; [exact Hop|]. rewrite <- E.
      unfold first_record. rewrite Hfile, <- app_assoc. reflexivity. }
  destruct Hfileopen as (file & s2 & Hexp & Hop & Hres).
  inversion Hres; subst.
  exists lvl, path, rot, keep, file, s1, s2. repeat split; assumption.
Qed.

(** A call that raises after the console sink was added. *)
Lemma install_sinks_raised s w e w' lvl path :
  install_sinks s w = (Raised e, w') ->
  check_level (log_level s) = Returned lvl ->
  log_file s = PStr path ->
  handlers (w_core w') = [(handlers_count (w_core w), console_handler lvl)]
  /\ (handlers_count (w_core w) < handlers_count (w_core w'))%nat
  /\ exists evs : list event,
       w_trace w' = (w_trace w ++ EvMkdir (path_parent path) :: evs)%list
       /\ (evs = [] \/ exists file, evs = [EvOpen file]).
Proof.
  intros E Hlvl Hfile. unfold_ops. unfold Path in E.
  rewrite Hlvl, Hfile in E. sim E.
  destruct (mkdir_parents _ _) as [e1|s1] eqn:Hmk; sim E.
  { inversion E; subst; cbn. repeat split; [lia|]. exists []. split; [reflexivity|now left]. }
  destruct (braces_refused path s1) eqn:Hbraces; sim E.
  { inversion E; subst; cbn. repeat split; [lia|]. exists []. split; [reflexivity|now left]. }
  destruct (make_rotation_function _) as [rot|e1] eqn:Hrot; sim E.
  2:{ inversion E; subst; cbn. repeat split; [lia|]. exists []. split; [reflexivity|now left]. }
  destruct (make_retention_function _) as [keep|e1] eqn:Hkeep; sim E.
  2:{ inversion E; subst; cbn. repeat split; [lia|]. exists []. split; [reflexivity|now left]. }
  destruct (has_brace path).
  - destruct (expand_path path s1) as [e1|file] eqn:Hexp; sim E.
    { inversion E; subst; cbn. repeat split; [lia|]. exists []. split; [reflexivity|now left]. }
    destruct (open_append file s1) as [e1|s2] eqn:Hop; sim E; [|discriminate].
    inversion E; subst; cbn. repeat split; [lia|].
    exists [EvOpen file]. rewrite <- app_assoc. split; [reflexivity|right; now exists file].
  - sim E. destruct (open_append path s1) as [e1|s2] eqn:Hop; sim E; [|discriminate].
    inversion E; subst; cbn. repeat split; [lia|].
    exists [EvOpen path]. rewrite <- app_assoc. split; [reflexivity|right; now exists path].
Qed.

Lemma install_sinks_mkdir_fails s w e lvl path :
  check_level (log_level s) = Returned lvl ->
  log_file s = PStr path ->
  mkdir_parents (path_parent path) (w_os w) = inl e ->
  install_sinks s w
  = (Raised e,
     mk_world (w_os w)
       (mk_core [(handlers_count (w_core w), console_handler lvl)]
                (S (handlers_count (w_core w))))
       (w_trace w ++ [EvMkdir (path_parent path)])).
Proof.
  intros Hlvl Hfile Hmk. unfold_ops. unfold Path.
  rewrite Hlvl, Hfile. cbn -[path_parent]. rewrite Hmk. reflexivity.
Qed.

Lemma install_sinks_open_fails s w e lvl path rot keep s1 file :
  check_level (log_level s) = Returned lvl ->
  log_file s = PStr path ->
  mkdir_parents (path_parent path) (w_os w) = inr s1 ->
  make_rotation_function (py_str (max_size_mb s) ++ " MB")%string = Returned rot ->
  make_retention_function (backup_count s) = Returned keep ->
  (if has_brace path then expand_path path s1 = inr file else file = path) ->
  open_append file s1 = inl e ->
  install_sinks s w
  = (Raised e,
     mk_world s1
       (mk_core [(handlers_count (w_core w), console_handler lvl)]
                (S (S (handlers_count (w_core w)))))
       (w_trace w ++ [EvMkdir (path_parent path); EvOpen file])).
Proof.
  intros Hlvl Hfile Hmk Hrot Hkeep Hbr Hop. unfold_ops. unfold Path.
  rewrite Hlvl, Hfile. cbn -[path_parent]. rewrite Hmk.
  cbn -[path_parent make_rotation_function String.append py_str braces_refused].
  rewrite (@braces_pass path s1 file Hbr).
  cbn -[path_parent make_rotation_function String.append py_str].
  rewrite Hrot. cbn -[path_parent]. rewrite Hkeep. cbn -[path_parent has_brace].
  destruct (has_brace path); [rewrite Hbr|subst file];
    cbn -[path_parent]; rewrite Hop; rewrite <- app_assoc; reflexivity.
Qed.

Lemma install_sinks_succeeds s w lvl path rot keep s1 s2 file :
  check_level (log_level s) = Returned lvl ->
  log_file s = PStr path ->
  mkdir_parents (path_parent path) (w_os w) = inr s1 ->
  make_rotation_function (py_str (max_size_mb s) ++ " MB")%string = Returned rot ->
  make_retention_function (backup_count s) = Returned keep ->
  (if has_brace path then expand_path path s1 = inr file else file = path) ->
  open_append file s1 = inr s2 ->
  install_sinks s w
  = (Returned logger,
     fold_left (emit (first_record s (now s2)))
       (handlers (installed_core (handlers_count (w_core w)) lvl path rot keep))
       (mk_world s2
          (installed_core (handlers_count (w_core w)) lvl path rot keep)
          (w_trace w ++ [EvMkdir (path_parent path); EvOpen file]))).
Proof.
  intros Hlvl Hfile Hmk Hrot Hkeep Hbr Hop. unfold_ops. unfold Path.
  unfold first_record. rewrite Hlvl, Hfile. cbn -[path_parent]. rewrite Hmk.
  cbn -[path_parent make_rotation_function String.append py_str braces_refused].
  rewrite (@braces_pass path s1 file Hbr).
  cbn -[path_parent make_rotation_function String.append py_str].
  rewrite Hrot. cbn -[path_parent]. rewrite Hkeep. cbn -[path_parent has_brace].
  destruct (has_brace path); [rewrite Hbr|subst file];
    cbn -[path_parent fold_left String.append py_str]; rewrite Hop;
    cbn -[path_parent fold_left String.append py_str emit];
    rewrite <- app_assoc; reflexivity.
Qed.

(** Reading the settings touches neither the file system nor the
    handlers, and reads the configuration at most once. *)
Lemma read_settings_world cp w o w0 :
  read_settings cp w = (o, w0) ->
  w_os w0 = w_os w /\ w_core w0 = w_core w
  /\ (w_trace w0 = w_trace w ++ [EvExists (default_arg cp "config.yaml")]
      \/ w_trace w0 = w_trace w ++ [EvExists (default_arg cp "config.yaml");
                                     EvRead (default_arg cp "config.yaml")]).
Proof.
  unfold read_settings. unfold_ops.
  destruct (path_exists _ _) as [[|]|e0].
  3:{ cbn. intros E; inversion E; subst; cbn. auto. }
  - destruct (read_text _ _) as [e|doc]; cbn.
    { intros E; inversion E; subst; cbn. rewrite <- app_assoc. auto. }
    destruct (safe_load doc) as [cfg|]; cbn.
    2:{ intros E; inversion E; subst; cbn. rewrite <- app_assoc. auto. }
    destruct (py_get cfg _ _) as [lc|e]; cbn.
    2:{ intros E; inversion E; subst; cbn. rewrite <- app_assoc. auto. }
    destruct (py_get lc "level" _); cbn;
      [|intros E; inversion E; subst; cbn; rewrite <- app_assoc; auto].
    destruct (py_get lc "file" _); cbn;
      [|intros E; inversion E; subst; cbn; rewrite <- app_assoc; auto].
    destruct (py_get lc "max_size_mb" _); cbn;
      [|intros E; inversion E; subst; cbn; rewrite <- app_assoc; auto].
    destruct (py_get lc "backup_count" _); cbn;
      intros E; inversion E; subst; cbn; rewrite <- app_assoc; auto.
  - cbn. intros E; inversion E; subst; cbn. auto.
Qed.
End Installing.

(** ** Reading the settings: C4 and C9 *)

Section Reading.
Context {H : Host}.

Lemma read_settings_absent cp w :
  path_exists (default_arg cp "config.yaml") (w_os w) = false ->
  read_settings cp w
  = (Returned default_settings,
     log_event (EvExists (default_arg cp "config.yaml")) w).
Proof.
  intros E. unfold read_settings. unfold_ops. rewrite E. reflexivity.
Qed.

(** The settings a loaded document gives. *)
Lemma read_settings_loaded cp w doc config :
  path_exists (default_arg cp "config.yaml") (w_os w) = true ->
  read_text (default_arg cp "config.yaml") (w_os w) = inr doc ->
  safe_load doc = Some config ->
  read_settings cp w
  = (settings_of config,
     mk_world (w_os w) (w_core w)
       (w_trace w ++ [EvExists (default_arg cp "config.yaml");
                      EvRead (default_arg cp "config.yaml")])).
Proof.
  intros E R L. unfold read_settings, settings_of, then_. unfold_ops.
  rewrite E. cbn. rewrite R, L. rewrite <- app_assoc. cbn.
  destruct (py_get config _ _) as [lc|e]; [|reflexivity].
  destruct (py_get lc "level" _); [|reflexivity].
  destruct (py_get lc "file" _); [|reflexivity].
  destruct (py_get lc "max_size_mb" _); [|reflexivity].
  destruct (py_get lc "backup_count" _); reflexivity.
Qed.

Lemma setup_logging_of_settings cp w s w0 :
  read_settings cp w = (Returned s, w0) ->
  setup_logging cp w = install_sinks s w0.
Proof.
  intros E. rewrite setup_logging_blocks. apply and_then_returned. exact E.
Qed.

Lemma setup_logging_settings_raise cp w e w0 :
  read_settings cp w = (Raised e, w0) ->
  setup_logging cp w = (Raised e, w0).
Proof.
  intros E. rewrite setup_logging_blocks. apply and_then_raised. exact E.
Qed.

(** C4.  When the configuration file exists and its text is not valid
    YAML, [setup_logging] raises the parser's error to its caller.  It
    does nothing about it: the file system and the handlers are as they
    were, and the trace shows the file looked up and read once. *)
Theorem setup_logging_malformed_config cp w doc :
  path_exists (default_arg cp "config.yaml") (w_os w) = true ->
  read_text (default_arg cp "config.yaml") (w_os w) = inr doc ->
  safe_load doc = None ->
  setup_logging cp w
  = (Raised YAMLError,
     mk_world (w_os w) (w_core w)
       (w_trace w ++ [EvExists (default_arg cp "config.yaml");
                      EvRead (default_arg cp "config.yaml")])).
Proof.
  intros E R L. apply setup_logging_settings_raise.
  unfold read_settings. unfold_ops. rewrite E. cbn. rewrite R, L.
  rewrite <- app_assoc. reflexivity.
Qed.

(** C9.  When the configuration file exists and loads to a value that
    is not a mapping (an empty document loads to [None], a sequence to a
    list), the lookup of the "logging" section raises [AttributeError]:
    the call neither falls back to the defaults nor reports a parse
    error, and leaves the file system and the handlers as they were. *)
Theorem setup_logging_config_not_mapping cp w doc config :
  path_exists (default_arg cp "config.yaml") (w_os w) = true ->
  read_text (default_arg cp "config.yaml") (w_os w) = inr doc ->
  safe_load doc = Some config ->
  is_dict config = false ->
  setup_logging cp w
  = (Raised AttributeError,
     mk_world (w_os w) (w_core w)
       (w_trace w ++ [EvExists (default_arg cp "config.yaml");
                      EvRead (default_arg cp "config.yaml")])).
Proof.
  intros E R L D. apply setup_logging_settings_raise.
  erewrite read_settings_loaded by eassumption. unfold settings_of, then_.
  destruct config; try discriminate D; reflexivity.
Qed.
End Reading.

(** ** Defaults and failures: C2, C6 and C10 *)

Section Failing.
Context {H : Host}.

Lemma emit_core r w ih : w_core (emit r w ih) = w_core w.
Proof. unfold emit. destruct (_ <=? _); reflexivity. Qed.

Lemma fold_emit_core r hs w : w_core (fold_left (emit r) hs w) = w_core w.
Proof.
  revert w. induction hs as [|ih hs IH]; intros w; cbn -[emit]; [reflexivity|].
  rewrite IH. apply emit_core.
Qed.

(** Each setting on its own: the value under its key in the "logging"
    section when the key is there, its default when not. *)
Lemma settings_field_by_field items section :
  dict_lookup "logging" items = Some (PDict section) ->
  let get := fun key default =>
    match dict_lookup key section with Some v => v | None => default end in
  settings_of (PDict items)
  = Returned (mk_settings (get "level" (PStr "INFO"))
                          (get "file" (PStr "logs/bot.log"))
                          (get "max_size_mb" (PInt 10))
                          (get "backup_count" (PInt 5))).
Proof.
  intros E. unfold settings_of, then_. cbn. rewrite E. reflexivity.
Qed.

(** C2.  When the configuration file does not exist, or exists and
    loads to a mapping without a "logging" key, every setting takes its
    default: level "INFO", file "logs/bot.log", 10 megabytes, 5 backups.
    Where the directory can be made and the file opened, the call returns
    with a console handler at INFO and a file handler on "logs/bot.log"
    at INFO that rotates at 10 MB (ten million bytes), keeps 5 archives
    and compresses them. *)
Theorem setup_logging_defaults cp w :
  (path_exists (default_arg cp "config.yaml") (w_os w) = false
   \/ exists doc items,
        path_exists (default_arg cp "config.yaml") (w_os w) = true
        /\ read_text (default_arg cp "config.yaml") (w_os w) = inr doc
        /\ safe_load doc = Some (PDict items)
        /\ dict_lookup "logging" items = None) ->
  fst (read_settings cp w) = Returned default_settings
  /\ (forall s1 s2,
        mkdir_parents "logs" (w_os w) = inr s1 ->
        open_append "logs/bot.log" s1 = inr s2 ->
        exists w',
          setup_logging cp w = (Returned logger, w')
          /\ sinks (w_core w')
             = [console_handler 20;
                file_handler "logs/bot.log" (mk_rotation "10" 2 false false)
                             (RetainCount 5) 20])
  /\ rotation_limit (mk_rotation "10" 2 false false) = Some (10 * 1000000).
Proof.
  intros Hcfg.
  assert (Hread : exists w0, read_settings cp w = (Returned default_settings, w0)
                             /\ w_os w0 = w_os w).
  { destruct Hcfg as [Habs | (doc & items & Hex & Hrd & Hld & Hno)].
    - eexists. split; [apply read_settings_absent; exact Habs|reflexivity].
    - erewrite read_settings_loaded by eassumption.
      unfold settings_of, then_. cbn. rewrite Hno.
      eexists. split; reflexivity. }
  destruct Hread as (w0 & Hread & Hos).
  split; [rewrite Hread; reflexivity|]. split; [|reflexivity].
  intros s1 s2 Hmk Hop.
  rewrite (setup_logging_of_settings _ _ Hread).
  erewrite install_sinks_succeeds with (lvl := 20) (path := "logs/bot.log")
    (rot := mk_rotation "10" 2 false false) (keep := RetainCount 5)
    (file := "logs/bot.log");
    try reflexivity; try (rewrite Hos; eassumption); try eassumption.
  eexists. split; [reflexivity|].
  unfold sinks. rewrite fold_emit_core. reflexivity.
Qed.

(** C6.  Once the settings are read, the level accepted and the log
    file a path: when the parent directory of the log file cannot be
    made, or the directory is made and the sink's options are accepted but
    the file cannot be opened, [setup_logging] raises that [OSError] to
    its caller.  The trace shows one attempt to make the directory and at
    most one to open the file: nothing is tried again. *)
Theorem setup_logging_filesystem_error cp w s lvl path errno :
  fst (read_settings cp w) = Returned s ->
  check_level (log_level s) = Returned lvl ->
  log_file s = PStr path ->
  (mkdir_parents (path_parent path) (w_os w) = inl (OSError errno)
   \/ exists s1 rot keep file,
        mkdir_parents (path_parent path) (w_os w) = inr s1
        /\ make_rotation_function (py_str (max_size_mb s) ++ " MB")%string
           = Returned rot
        /\ make_retention_function (backup_count s) = Returned keep
        /\ (if has_brace path then expand_path path s1 = inr file
            else file = path)
        /\ open_append file s1 = inl (OSError errno)) ->
  exists w' evs,
    setup_logging cp w = (Raised (OSError errno), w')
    /\ w_trace w' = w_trace w ++ evs
    /\ count_events is_mkdir evs = 1%nat
    /\ (count_events is_open evs <= 1)%nat.
Proof.
  intros Hs Hlvl Hfile Hfail.
  destruct (read_settings cp w) as [o w0] eqn:Hread. cbn in Hs. subst o.
  destruct (read_settings_world _ _ Hread) as (Hos & Hcore & Htr).
  rewrite (setup_logging_of_settings _ _ Hread).
  destruct Hfail as [Hmk | (s1 & rot & keep & file & Hmk & Hrot & Hkeep & Hexp & Hop)].
  - rewrite <- Hos in Hmk.
    rewrite (@install_sinks_mkdir_fails H s w0 _ lvl path Hlvl Hfile Hmk).
    destruct Htr as [Htr|Htr]; rewrite Htr, <- app_assoc;
      eexists; eexists; (split; [reflexivity|]); cbn [w_trace];
      (split; [reflexivity|]); cbn; auto.
  - rewrite <- Hos in Hmk.
    rewrite (@install_sinks_open_fails H s w0 _ lvl path rot keep s1 file
               Hlvl Hfile Hmk Hrot Hkeep Hexp Hop).
    destruct Htr as [Htr|Htr]; rewrite Htr, <- app_assoc;
      eexists; eexists; (split; [reflexivity|]); cbn [w_trace];
      (split; [reflexivity|]); cbn; auto.
Qed.

(** C10.  [setup_logging] is not atomic.  When it raises after the
    settings were read, the level accepted and the log file found to be a
    path (that is, in making the directory or in registering the file
    sink), the handlers that were registered before the call are gone and
    the new console handler is the only one: the core is not the one the
    call found, and it holds no file handler. *)
Theorem setup_logging_not_atomic cp w s lvl path e w' :
  fst (read_settings cp w) = Returned s ->
  check_level (log_level s) = Returned lvl ->
  log_file s = PStr path ->
  setup_logging cp w = (Raised e, w') ->
  handlers (w_core w') = [(handlers_count (w_core w), console_handler lvl)]
  /\ w_core w' <> w_core w
  /\ (forall rot keep, ~ In (file_handler path rot keep lvl) (sinks (w_core w'))).
Proof.
  intros Hs Hlvl Hfile E.
  destruct (read_settings cp w) as [o w0] eqn:Hread. cbn in Hs. subst o.
  destruct (read_settings_world _ _ Hread) as (Hos & Hcore & Htr).
  rewrite (setup_logging_of_settings _ _ Hread) in E.
  destruct (@install_sinks_raised H s w0 e w' lvl path E Hlvl Hfile)
    as (Hh & Hn & _).
  rewrite Hcore in Hh, Hn.
  split; [exact Hh|]. split.
  - intros Heq. rewrite Heq in Hn. lia.
  - intros rot keep Hin. unfold sinks in Hin. rewrite Hh in Hin.
    cbn in Hin. destruct Hin as [Hin|[]]. discriminate Hin.
Qed.
End Failing.

(** ** Directories and records: C7 and C1 *)

Section Emitting.
Context {H : Host}.

Lemma emit_keeps_dirs (L : HostLaws H) r w ih q :
  is_dir q (w_os w) = true -> is_dir q (w_os (emit r w ih)) = true.
Proof.
  intros D. unfold emit, write. destruct (_ <=? _); [|exact D].
  cbn. apply write_sink_keeps_dirs. exact D.
Qed.

Lemma fold_emit_keeps_dirs (L : HostLaws H) r hs w q :
  is_dir q (w_os w) = true -> is_dir q (w_os (fold_left (emit r) hs w)) = true.
Proof.
  revert w. induction hs as [|ih hs IH]; intros w D; cbn -[emit]; [exact D|].
  apply IH. apply emit_keeps_dirs; assumption.
Qed.

Lemma fold_emit_trace r hs w :
  w_trace (fold_left (emit r) hs w)
  = w_trace w
    ++ flat_map (fun ih : nat * handler =>
                   if h_levelno (snd ih) <=? lv_no (r_level r)
                   then [EvWrite (sink_target (snd ih))
                           (render (h_format (snd ih)) (h_colorize (snd ih)) r)]
                   else []) hs.
Proof.
  revert w. induction hs as [|ih hs IH]; intros w; cbn -[emit].
  - now rewrite app_nil_r.
  - rewrite IH. unfold emit, write. destruct (_ <=? _); cbn.
    + rewrite <- app_assoc. reflexivity.
    + reflexivity.
Qed.

(** C7.  On a file system where making a directory makes it, and opening
    or writing a file removes no directory: after a call of
    [setup_logging] that returns, the parent directory of the configured
    log file is a directory.  The directory was made before any sink that
    writes to a file received a line. *)
Theorem setup_logging_log_directory_exists (L : HostLaws H) cp w lg w' :
  setup_logging cp w = (Returned lg, w') ->
  exists s path,
    fst (read_settings cp w) = Returned s
    /\ log_file s = PStr path
    /\ is_dir (path_parent path) (w_os w') = true
    /\ exists before after,
         w_trace w' = w_trace w ++ before ++ EvMkdir (path_parent path) :: after
         /\ written_to is_file_target before = [].
Proof.
  intros E. rewrite setup_logging_blocks in E. unfold and_then in E.
  destruct (read_settings cp w) as [[s|e] w0] eqn:Hread; [|discriminate E].
  destruct (read_settings_world _ _ Hread) as (Hos & Hcore & Htr).
  destruct (install_sinks_returned _ _ E)
    as (lvl & path & rot & keep & file & s1 & s2
        & Hlvl & Hfile & Hrot & Hkeep & Hmk & Hexp & Hop & Hlg & Hw').
  exists s, path. split; [reflexivity|]. split; [exact Hfile|]. split.
  - rewrite Hw'. apply fold_emit_keeps_dirs; [exact L|]. cbn.
    eapply open_append_keeps_dirs; [exact Hop|].
    eapply mkdir_parents_is_dir. exact Hmk.
  - rewrite Hw', fold_emit_trace. cbn [w_trace].
    destruct Htr as [Htr|Htr]; rewrite Htr; repeat rewrite <- app_assoc.
    + exists [EvExists (default_arg cp "config.yaml")]. eexists.
      split; reflexivity.
    + exists [EvExists (default_arg cp "config.yaml");
              EvRead (default_arg cp "config.yaml")]. eexists.
      split; reflexivity.
Qed.

(** The console lines a trace shows for one record sent to the two
    installed handlers. *)
Lemma installed_console_lines r n lvl path rot keep :
  written_to is_console
    (flat_map (fun ih : nat * handler =>
                 if h_levelno (snd ih) <=? lv_no (r_level r)
                 then [EvWrite (sink_target (snd ih))
                         (render (h_format (snd ih)) (h_colorize (snd ih)) r)]
                 else [])
       (handlers (installed_core n lvl path rot keep)))
  = if lvl <=? lv_no (r_level r) then [render console_format true r] else [].
Proof.
  cbn -[render]. destruct (lvl <=? _); reflexivity.
Qed.

Lemma setup_logging_returned cp w lg w' :
  setup_logging cp w = (Returned lg, w') ->
  exists s lvl path rot keep,
    fst (read_settings cp w) = Returned s
    /\ check_level (log_level s) = Returned lvl
    /\ log_file s = PStr path
    /\ make_rotation_function (py_str (max_size_mb s) ++ " MB")%string = Returned rot
    /\ make_retention_function (backup_count s) = Returned keep
    /\ w_core w' = installed_core (handlers_count (w_core w)) lvl path rot keep
    /\ lg = logger.
Proof.
  intros E. rewrite setup_logging_blocks in E. unfold and_then in E.
  destruct (read_settings cp w) as [[s|e] w0] eqn:Hread; [|discriminate E].
  destruct (read_settings_world _ _ Hread) as (Hos & Hcore & Htr).
  destruct (install_sinks_returned _ _ E)
    as (lvl & path & rot & keep & file & s1 & s2
        & Hlvl & Hfile & Hrot & Hkeep & Hmk & Hexp & Hop & Hlg & Hw').
  exists s, lvl, path, rot, keep. repeat (split; [solve [auto]|]).
  split; [|exact Hlg]. rewrite Hw', fold_emit_core. cbn. rewrite Hcore. reflexivity.
Qed.

(** C1.  Every call that returns leaves exactly the console handler and
    the file handler of its settings, whatever handlers were registered
    before.  So a second call that reads the same settings leaves the
    same sinks as the first, and a record sent afterwards reaches the
    console once if it passes the level, and not at all otherwise. *)
Theorem setup_logging_twice_same_sinks cp w lg1 w1 lg2 w2 :
  setup_logging cp w = (Returned lg1, w1) ->
  setup_logging cp w1 = (Returned lg2, w2) ->
  fst (read_settings cp w1) = fst (read_settings cp w) ->
  exists lvl path rot keep,
    sinks (w_core w1) = [console_handler lvl; file_handler path rot keep lvl]
    /\ sinks (w_core w2) = sinks (w_core w1)
    /\ forall lg lv caller message,
         exists evs,
           w_trace (snd (logger_log lg lv caller message w2)) = w_trace w2 ++ evs
           /\ written_to is_console evs
              = if lvl <=? lv_no lv
                then [render console_format true
                        (mk_record (now (w_os w2)) lv (f_module caller)
                           (f_function caller) (f_lineno caller) message
                           (extra lg))]
                else [].
Proof.
  intros E1 E2 Hsame.
  destruct (setup_logging_returned _ _ E1)
    as (s & lvl & path & rot & keep & Hs & Hlvl & Hfile & Hrot & Hkeep & Hc1 & _).
  destruct (setup_logging_returned _ _ E2)
    as (s' & lvl' & path' & rot' & keep' & Hs' & Hlvl' & Hfile' & Hrot' & Hkeep' & Hc2 & _).
  rewrite Hsame, Hs in Hs'. injection Hs' as <-.
  rewrite Hlvl in Hlvl'. injection Hlvl' as <-.
  rewrite Hfile in Hfile'. injection Hfile' as <-.
  rewrite Hrot in Hrot'. injection Hrot' as <-.
  rewrite Hkeep in Hkeep'. injection Hkeep' as <-.
  exists lvl, path, rot, keep. unfold sinks. rewrite Hc1, Hc2.
  split; [reflexivity|]. split; [reflexivity|].
  intros lg lv caller message. unfold logger_log. cbn [snd].
  rewrite fold_emit_trace. eexists. split; [reflexivity|].
  rewrite Hc2. apply installed_console_lines.
Qed.
End Emitting.

(** *** Decimal texts of whole numbers *)







(** *** A text of digits followed by [" MB"] is a size *)









(** *** The count retention *)







(** ** The file sink's options and the bound name: C8, C5 and C3 *)

Section Options.
Context {H : Host}.


(** A record's rendering under the two formats of the module does not
    depend on the values bound to the handle. *)
Lemma render_ignores_extra colorize t lv name function line message ex ex' :
  (render console_format colorize
     (mk_record t lv name function line message ex)
   = render console_format colorize
       (mk_record t lv name function line message ex'))
  /\ (render file_format colorize
        (mk_record t lv name function line message ex)
      = render file_format colorize
          (mk_record t lv name function line message ex')).
Proof. split; destruct colorize; reflexivity. Qed.

(** C5, as amended.  Without an argument, [get_logger] binds the name of
    the module that defines it: the same handle as [get_logger(__name__)]
    evaluated inside [logger.py], for every caller. *)
Theorem get_logger_default_is_module_name :
  bound_name (get_logger None) = Some (PStr __name__)
  /\ get_logger None = get_logger (Some __name__).
Proof. split; reflexivity. Qed.
End Options.

(** C5, as stated, fails: called from the module "strategies.rsi"
    without an argument, the handle is bound to "src.utils.logger", the
    name of the defining module, and not to the caller's. *)
Lemma get_logger_default_not_caller :
  ~ (forall caller : frame,
       bound_name (get_logger (H := mem_host) None)
       = Some (PStr (f_module caller))).
Proof.
  intros Hall. specialize (Hall (mk_frame "strategies.rsi" "on_tick" 42)).
  discriminate Hall.
Qed.


(** C3.  The code at the claim's input: after [setup_logging] with the
    defaults, a record sent from "strategies.rsi" through
    [get_logger("moduleA")] carries "moduleA" among its extra values, yet
    the lines the two sinks receive name "strategies.rsi" in the [name]
    field, and "moduleA" occurs in none of the lines written. *)
Theorem get_logger_name_not_rendered :
  let lg := get_logger (H := mem_host) (Some "moduleA") in
  let w1 := snd (setup_logging (H := mem_host) None (mem_world fs_empty)) in
  let w2 := snd (logger_info lg (mk_frame "strategies.rsi" "on_tick" 42)
                   "signal" w1) in
  bound_name lg = Some (PStr "moduleA")
  /\ skipn (List.length (w_trace w1)) (w_trace w2)
     = [EvWrite (ToStream Stdout)
          (render console_format true
             (mk_record (mk_datetime 2024 1 5 9 3 7 0) INFO "strategies.rsi"
                "on_tick" 42 "signal" [("name", PStr "moduleA")]));
        EvWrite (ToFile "logs/bot.log")
          ("2024-01-05 09:03:07 | INFO     | strategies.rsi:on_tick:42 - signal"
           ++ nl)%string]
  /\ forallb (fun line => negb (occurs_in "moduleA" line))
       (written_to (fun _ => true) (w_trace w2)) = true.
Proof. vm_compute. repeat split. Qed.

(* ================================================================= *)
(** ** The host in memory at work *)

Lemma mem_string_refl p l : mem p (p :: l) = true.
Proof. unfold mem. cbn. now rewrite String.eqb_refl. Qed.

Lemma mem_host_laws : HostLaws mem_host.
Proof.
  split.
  - intros p s s'. cbn. unfold mem_mkdir.
    destruct (mem p (map fst (m_files s))); [discriminate|].
    destruct (mem p (m_denied s)); [discriminate|].
    intros E. injection E as <-. cbn. apply mem_string_refl.
  - intros p q s s'. cbn. unfold mem_open_append.
    destruct (mem p (m_dirs s)); [discriminate|].
    destruct (mem p (m_denied s)); [discriminate|].
    intros E. injection E as <-. cbn. auto.
  - intros t x q s. cbn. destruct t; cbn; auto.
Qed.

Example path_parent_examples :
  path_parent "logs/bot.log" = "logs" /\ path_parent "bot.log" = "."
  /\ path_parent "/var/log/bot.log" = "/var/log" /\ path_parent "a//b/./c/" = "a/b".
Proof. repeat split. Qed.

Example tokenize_file_format :
  tokenize file_format
  = [TField "time" "YYYY-MM-DD HH:mm:ss"; TText " | "; TField "level" " <8";
     TText " | "; TField "name" ""; TText ":"; TField "function" "";
     TText ":"; TField "line" ""; TText " - "; TField "message" ""].
Proof. reflexivity. Qed.

Example rotation_texts :
  make_rotation_function (H := mem_host) "10 MB"
  = Returned (mk_rotation "10" 2 false false)
  /\ make_rotation_function (H := mem_host) "1.5 MB"
     = Returned (mk_rotation "1.5" 2 false false)
  /\ make_rotation_function (H := mem_host) "None MB" = Raised ValueError
  /\ make_rotation_function (H := mem_host) "1e MB" = Raised ValueError.
Proof. repeat split. Qed.

(** A size text in another script is the host's to read. *)
Example rotation_text_beyond_ascii :
  make_rotation_function (H := mem_host) arabic_three_mb
  = Returned (mk_rotation "3" 2 false false)
  /\ rotation_limit (mk_rotation "3" 2 false false) = Some 3000000.
Proof. split; reflexivity. Qed.

(** With the log file itself refused, the directory is made and the
    call raises from the registration of the file sink. *)
Example setup_logging_open_refused :
  let r := setup_logging (H := mem_host) None (mem_world fs_log_file_denied) in
  fst r = Raised (OSError 13)
  /\ sinks (w_core (snd r)) = [console_handler 20]
  /\ w_trace (snd r) = [EvExists "config.yaml"; EvMkdir "logs"; EvOpen "logs/bot.log"].
Proof. repeat split. Qed.

(* ================================================================= *)
(** ** The statements at work on the host in memory *)

Lemma setup_logging_twice_same_sinks_witness :
  let w := mem_world fs_empty in
  let w1 := snd (setup_logging (H := mem_host) None w) in
  let w2 := snd (setup_logging (H := mem_host) None w1) in
  setup_logging None w = (Returned logger, w1)
  /\ setup_logging None w1 = (Returned logger, w2)
  /\ fst (read_settings None w1) = fst (read_settings None w)
  /\ exists lvl path rot keep,
       sinks (w_core w1) = [console_handler lvl; file_handler path rot keep lvl]
       /\ sinks (w_core w2) = sinks (w_core w1)
       /\ forall lg lv caller message,
            exists evs,
              w_trace (snd (logger_log lg lv caller message w2)) = w_trace w2 ++ evs
              /\ written_to is_console evs
                 = if lvl <=? lv_no lv
                   then [render console_format true
                           (mk_record (now (w_os w2)) lv (f_module caller)
                              (f_function caller) (f_lineno caller) message
                              (extra lg))]
                   else [].
Proof.
  intros w w1 w2.
  assert (E1 : setup_logging None w = (Returned logger, w1)) by (vm_compute; reflexivity).
  assert (E2 : setup_logging None w1 = (Returned logger, w2)) by (vm_compute; reflexivity).
  assert (E3 : fst (read_settings None w1) = fst (read_settings None w))
    by (vm_compute; reflexivity).
  split; [exact E1|]. split; [exact E2|]. split; [exact E3|].
  exact (setup_logging_twice_same_sinks None w E1 E2 E3).
Defined.

Lemma setup_logging_defaults_witness :
  fst (read_settings (H := mem_host) None (mem_world fs_empty))
  = Returned default_settings
  /\ exists w',
       setup_logging (H := mem_host) None (mem_world fs_empty) = (Returned logger, w')
       /\ sinks (w_core w')
          = [console_handler 20;
             file_handler "logs/bot.log" (mk_rotation "10" 2 false false)
                          (RetainCount 5) 20].
Proof.
  destruct (@setup_logging_defaults mem_host None (mem_world fs_empty)
              (or_introl eq_refl)) as (A & B & _).
  split; [exact A|].
  eapply B; reflexivity.
Defined.

Lemma setup_logging_malformed_config_witness :
  setup_logging (H := mem_host) None (mem_world (fs_with_config "logging: ["))
  = (Raised YAMLError,
     mk_world (H := mem_host) (fs_with_config "logging: [") core_at_import
       [EvExists "config.yaml"; EvRead "config.yaml"]).
Proof.
  apply (@setup_logging_malformed_config mem_host None
           (mem_world (fs_with_config "logging: [")) "logging: [");
    reflexivity.
Defined.

Lemma setup_logging_config_not_mapping_witness :
  setup_logging (H := mem_host) None (mem_world (fs_with_config ""))
  = (Raised AttributeError,
     mk_world (H := mem_host) (fs_with_config "") core_at_import
       [EvExists "config.yaml"; EvRead "config.yaml"]).
Proof.
  apply (@setup_logging_config_not_mapping mem_host None
           (mem_world (fs_with_config "")) "" PNone);
    reflexivity.
Defined.

Lemma setup_logging_filesystem_error_witness :
  exists w' evs,
    setup_logging (H := mem_host) None (mem_world fs_logs_denied)
    = (Raised (OSError 13), w')
    /\ w_trace w' = w_trace (mem_world fs_logs_denied) ++ evs
    /\ count_events is_mkdir evs = 1%nat
    /\ (count_events is_open evs <= 1)%nat.
Proof.
  apply (@setup_logging_filesystem_error mem_host None (mem_world fs_logs_denied)
           default_settings 20 "logs/bot.log" 13);
    [reflexivity | reflexivity | reflexivity | left; reflexivity].
Defined.

Lemma setup_logging_not_atomic_witness :
  let w := mem_world fs_logs_denied in
  let w' := snd (setup_logging (H := mem_host) None w) in
  setup_logging None w = (Raised (OSError 13), w')
  /\ handlers (w_core w') = [(1%nat, console_handler 20)]
  /\ w_core w' <> w_core w
  /\ (forall rot keep,
        ~ In (file_handler "logs/bot.log" rot keep 20) (sinks (w_core w'))).
Proof.
  intros w w'.
  assert (E : setup_logging None w = (Raised (OSError 13), w'))
    by (vm_compute; reflexivity).
  split; [exact E|].
  apply (@setup_logging_not_atomic mem_host None w default_settings 20
           "logs/bot.log" (OSError 13) w');
    [reflexivity | reflexivity | reflexivity | exact E].
Defined.

Lemma setup_logging_log_directory_exists_witness :
  let w := mem_world fs_empty in
  let w' := snd (setup_logging (H := mem_host) None w) in
  exists s path,
    fst (read_settings None w) = Returned s
    /\ log_file s = PStr path
    /\ is_dir (path_parent path) (w_os w') = true
    /\ exists before after,
         w_trace w' = w_trace w ++ before ++ EvMkdir (path_parent path) :: after
         /\ written_to is_file_target before = [].
Proof.
  intros w w'.
  apply (@setup_logging_log_directory_exists mem_host mem_host_laws None w logger w').
  vm_compute. reflexivity.
Defined.


(* ================================================================= *)
(** * Further properties of the module *)

Lemma append_assoc (a b c : string) : ((a ++ b) ++ c = a ++ (b ++ c))%string.
Proof. induction a as [|x a IH]; cbn; [reflexivity|]. now rewrite IH. Qed.

Lemma append_nil_r (a : string) : (a ++ "" = a)%string.
Proof. induction a as [|x a IH]; cbn; [reflexivity|]. now rewrite IH. Qed.

Ltac flatten_text :=
  repeat first [rewrite append_assoc | rewrite append_nil_r
               | progress cbn [String.append]].

(** X11.  The file format lays a record out as
    [YYYY-MM-DD HH:mm:ss | level | name:function:line - message] and a
    line end, the level padded with spaces to eight characters; the
    console format, its colour markup dropped, lays out the same line. *)
Theorem line_layout_of_formats r :
  render file_format false r = line_layout r
  /\ render console_format false r = line_layout r.
Proof.
  destruct r as [[y mo d h mi s us] [ln lno] name fn line msg ex].
  unfold line_layout.
  split; cbv -[zero_pad str_of_int String.append repeat_char String.length Nat.sub];
    flatten_text; reflexivity.
Qed.

Lemma count_events_app p (a b : list event) :
  count_events p (a ++ b) = (count_events p a + count_events p b)%nat.
Proof. unfold count_events. now rewrite filter_app, length_app. Qed.

Section Refusals.
Context {H : Host}.

Lemma read_settings_fst cp w s :
  fst (read_settings cp w) = Returned s ->
  exists w0, read_settings cp w = (Returned s, w0)
             /\ w_os w0 = w_os w /\ w_core w0 = w_core w
             /\ exists reads, w_trace w0 = w_trace w ++ reads
                  /\ (reads = [EvExists (default_arg cp "config.yaml")]
                      \/ reads = [EvExists (default_arg cp "config.yaml");
                                  EvRead (default_arg cp "config.yaml")]).
Proof.
  intros Hs. destruct (read_settings cp w) as [o w0] eqn:Hread.
  cbn in Hs. subst o. exists w0.
  destruct (read_settings_world _ _ Hread) as (Hos & Hcore & Htr).
  repeat (split; [solve [auto]|]).
  destruct Htr as [Htr|Htr]; eexists; (split; [exact Htr|auto]).
Qed.

(** X1.  When the configured level is refused (an unknown name, a
    negative number, a value that is neither text nor number), the call
    raises that [ValueError] or [TypeError] after it removed the handlers
    and before it added one: the logger is left with no handler at all,
    the file system as it was, and a record sent afterwards goes
    nowhere. *)
Theorem setup_logging_level_refused cp w s e :
  fst (read_settings cp w) = Returned s ->
  check_level (log_level s) = Raised e ->
  exists w',
    setup_logging cp w = (Raised e, w')
    /\ (e = ValueError \/ e = TypeError)
    /\ handlers (w_core w') = []
    /\ w_os w' = w_os w
    /\ forall lg lv caller message,
         snd (logger_log lg lv caller message w') = w'.
Proof.
  intros Hs Hlvl.
  destruct (read_settings_fst _ _ Hs) as (w0 & Hread & Hos & Hcore & _).
  rewrite (setup_logging_of_settings _ _ Hread).
  unfold_ops. rewrite Hlvl. cbn.
  eexists. split; [reflexivity|]. split.
  - unfold check_level in Hlvl.
    destruct (log_level s) as [| |n|t| | |]; try (injection Hlvl as <-; auto);
      try discriminate Hlvl.
    + destruct (n <? 0); [injection Hlvl as <-; auto|discriminate Hlvl].
    + destruct (level_no t); [discriminate Hlvl|injection Hlvl as <-; auto].
  - cbn. repeat split; auto.
Qed.

(** X2.  When the configured file is not text, [Path] raises
    [TypeError] after the console handler was added: the console handler
    is the only one left, and no directory was made. *)
Theorem setup_logging_file_not_text cp w s lvl :
  fst (read_settings cp w) = Returned s ->
  check_level (log_level s) = Returned lvl ->
  (forall p, log_file s <> PStr p) ->
  exists w',
    setup_logging cp w = (Raised TypeError, w')
    /\ handlers (w_core w') = [(handlers_count (w_core w), console_handler lvl)]
    /\ w_os w' = w_os w
    /\ count_events is_mkdir (w_trace w') = count_events is_mkdir (w_trace w).
Proof.
  intros Hs Hlvl Hnot.
  destruct (read_settings_fst _ _ Hs) as (w0 & Hread & Hos & Hcore & reads & Htr & Hreads).
  rewrite (setup_logging_of_settings _ _ Hread).
  unfold_ops. rewrite Hlvl. unfold Path.
  assert (Hpath : match log_file s with
                  | PStr p => Returned p
                  | _ => Raised TypeError
                  end = Raised TypeError).
  { destruct (log_file s) as [| | |p| | |] eqn:Hfile; try reflexivity.
    exfalso. apply (Hnot p). reflexivity. }
  rewrite Hpath. cbn [app]. eexists. split; [reflexivity|].
  cbn [w_core w_os w_trace handlers handlers_count]. rewrite Hcore.
  split; [reflexivity|]. split; [exact Hos|].
  rewrite Htr, count_events_app.
  destruct Hreads as [-> | ->]; cbn; lia.
Qed.

(** X3.  A "logging" key that is there with a value that is not a
    mapping (as [logging:] with nothing under it, which loads to [None])
    does not give the defaults: the first [get] on it raises
    [AttributeError], with the file system and the handlers as they
    were. *)
Theorem setup_logging_section_not_mapping cp w doc items v :
  path_exists (default_arg cp "config.yaml") (w_os w) = true ->
  read_text (default_arg cp "config.yaml") (w_os w) = inr doc ->
  safe_load doc = Some (PDict items) ->
  dict_lookup "logging" items = Some v ->
  is_dict v = false ->
  setup_logging cp w
  = (Raised AttributeError,
     mk_world (w_os w) (w_core w)
       (w_trace w ++ [EvExists (default_arg cp "config.yaml");
                      EvRead (default_arg cp "config.yaml")])).
Proof.
  intros E R L K D. apply setup_logging_settings_raise.
  erewrite read_settings_loaded by eassumption.
  unfold settings_of, then_. cbn. rewrite K.
  destruct v; try discriminate D; reflexivity.
Qed.

(** X4.  With a "logging" section that is a mapping, each of the four
    settings is the value under its key when the key is there, whatever
    the value (also [None]), and its default only when the key is
    missing. *)
Theorem read_settings_field_by_field cp w doc items section :
  path_exists (default_arg cp "config.yaml") (w_os w) = true ->
  read_text (default_arg cp "config.yaml") (w_os w) = inr doc ->
  safe_load doc = Some (PDict items) ->
  dict_lookup "logging" items = Some (PDict section) ->
  fst (read_settings cp w)
  = Returned (mk_settings (get_or section "level" (PStr "INFO"))
                          (get_or section "file" (PStr "logs/bot.log"))
                          (get_or section "max_size_mb" (PInt 10))
                          (get_or section "backup_count" (PInt 5))).
Proof.
  intros E R L K.
  erewrite read_settings_loaded by eassumption. cbn [fst].
  apply settings_field_by_field. exact K.
Qed.


(** X13.  The file sink reads the braces of its path before it looks at
    its options: when the directory was made and the braces cannot be
    read, the call raises [ValueError], whatever the rotation text and
    the retention value are, with the directory made, the file never
    opened, and the console handler the only one left. *)
Theorem setup_logging_braces_refused cp w s lvl path s1 :
  fst (read_settings cp w) = Returned s ->
  check_level (log_level s) = Returned lvl ->
  log_file s = PStr path ->
  mkdir_parents (path_parent path) (w_os w) = inr s1 ->
  braces_refused path s1 = true ->
  exists w' evs,
    setup_logging cp w = (Raised ValueError, w')
    /\ handlers (w_core w') = [(handlers_count (w_core w), console_handler lvl)]
    /\ w_os w' = s1
    /\ w_trace w' = w_trace w ++ evs
    /\ count_events is_mkdir evs = 1%nat
    /\ count_events is_open evs = 0%nat.
Proof.
  intros Hs Hlvl Hfile Hmk Hbraces.
  destruct (read_settings_fst _ _ Hs) as (w0 & Hread & Hos & Hcore & reads & Htr & Hreads).
  rewrite (setup_logging_of_settings _ _ Hread).
  rewrite <- Hos in Hmk.
  unfold_ops. unfold Path. rewrite Hlvl, Hfile. cbn -[path_parent]. rewrite Hmk.
  cbn -[path_parent make_rotation_function String.append py_str braces_refused].
  rewrite Hbraces.
  cbn -[path_parent make_rotation_function String.append py_str].
  rewrite Hcore, Htr, <- app_assoc.
  (eexists; eexists; split; [reflexivity|]); cbn -[path_parent].
  repeat (split; [reflexivity|]). rewrite count_events_app.
  destruct Hreads as [-> | ->]; cbn; auto.
Qed.

(** X9.  When the configuration file exists and cannot be opened or
    read (it is a directory, it may not be read), the error of [open] is
    raised to the caller, with the file system and the handlers as they
    were: the defaults are for a missing file only. *)
Theorem setup_logging_config_unreadable cp w e :
  path_exists (default_arg cp "config.yaml") (w_os w) = true ->
  read_text (default_arg cp "config.yaml") (w_os w) = inl e ->
  setup_logging cp w
  = (Raised e,
     mk_world (w_os w) (w_core w)
       (w_trace w ++ [EvExists (default_arg cp "config.yaml");
                      EvRead (default_arg cp "config.yaml")])).
Proof.
  intros E R. apply setup_logging_settings_raise.
  unfold read_settings. unfold_ops. rewrite E. cbn. rewrite R.
  rewrite <- app_assoc. reflexivity.
Qed.
End Refusals.

Section Records.
Context {H : Host}.

Lemma installed_flat_map r n lvl path rot keep :
  flat_map (fun ih : nat * handler =>
              if h_levelno (snd ih) <=? lv_no (r_level r)
              then [EvWrite (sink_target (snd ih))
                      (render (h_format (snd ih)) (h_colorize (snd ih)) r)]
              else [])
    (handlers (installed_core n lvl path rot keep))
  = installed_writes lvl path r.
Proof.
  unfold installed_writes. cbn -[render]. destruct (lvl <=? _); reflexivity.
Qed.

(** Reading the settings looks the configuration file up once and reads
    it once where the lookup found it, whatever the outcome. *)
Lemma read_settings_reads cp w o w0 :
  read_settings cp w = (o, w0) ->
  w_trace w0
  = w_trace w ++ config_reads (default_arg cp "config.yaml") (w_os w).
Proof.
  unfold read_settings, config_reads. unfold_ops.
  destruct (path_exists _ _) as [[|]|e0].
  3:{ cbn. intros E; inversion E; subst; cbn. auto. }
  - destruct (read_text _ _) as [e|doc]; cbn.
    { intros E; inversion E; subst; cbn. rewrite <- app_assoc. auto. }
    destruct (safe_load doc) as [cfg|]; cbn.
    2:{ intros E; inversion E; subst; cbn. rewrite <- app_assoc. auto. }
    destruct (py_get cfg _ _) as [lc|e]; cbn.
    2:{ intros E; inversion E; subst; cbn. rewrite <- app_assoc. auto. }
    destruct (py_get lc "level" _); cbn;
      [|intros E; inversion E; subst; cbn; rewrite <- app_assoc; auto].
    destruct (py_get lc "file" _); cbn;
      [|intros E; inversion E; subst; cbn; rewrite <- app_assoc; auto].
    destruct (py_get lc "max_size_mb" _); cbn;
      [|intros E; inversion E; subst; cbn; rewrite <- app_assoc; auto].
    destruct (py_get lc "backup_count" _); cbn;
      intros E; inversion E; subst; cbn; rewrite <- app_assoc; auto.
  - cbn. intros E; inversion E; subst; cbn. auto.
Qed.

(** What a returning call leaves, with the states it went through. *)
Lemma setup_logging_returned_world cp w lg w' :
  setup_logging cp w = (Returned lg, w') ->
  exists s lvl path rot keep file s1 s2 reads,
    fst (read_settings cp w) = Returned s
    /\ check_level (log_level s) = Returned lvl
    /\ log_file s = PStr path
    /\ make_rotation_function (py_str (max_size_mb s) ++ " MB")%string = Returned rot
    /\ make_retention_function (backup_count s) = Returned keep
    /\ mkdir_parents (path_parent path) (w_os w) = inr s1
    /\ (if has_brace path then expand_path path s1 = inr file else file = path)
    /\ open_append file s1 = inr s2
    /\ reads = config_reads (default_arg cp "config.yaml") (w_os w)
    /\ w_core w' = installed_core (handlers_count (w_core w)) lvl path rot keep
    /\ w_trace w'
       = w_trace w ++ reads ++ [EvMkdir (path_parent path); EvOpen file]
         ++ installed_writes lvl path (first_record s (now s2)).
Proof.
  intros E. rewrite setup_logging_blocks in E. unfold and_then in E.
  destruct (read_settings cp w) as [[s|e] w0] eqn:Hread; [|discriminate E].
  destruct (read_settings_world _ _ Hread) as (Hos & Hcore & _).
  pose proof (read_settings_reads _ _ Hread) as Htr'.
  destruct (install_sinks_returned _ _ E)
    as (lvl & path & rot & keep & file & s1 & s2
        & Hlvl & Hfile & Hrot & Hkeep & Hmk & Hexp & Hop & Hlg & Hw').
  rewrite Hos in Hmk.
  exists s, lvl, path, rot, keep, file, s1, s2,
    (config_reads (default_arg cp "config.yaml") (w_os w)).
  repeat (split; [solve [auto]|]). split.
  - rewrite Hw', fold_emit_core. cbn. rewrite Hcore. reflexivity.
  - rewrite Hw', fold_emit_trace, installed_flat_map. cbn [w_trace].
    rewrite Htr'. repeat rewrite <- app_assoc. reflexivity.
Qed.

(** X6.  What a returning call does outside, in order: it looks the
    configuration file up and reads it exactly when the lookup found it,
    makes the parent directory of the configured log file, opens that log
    file (the configured path, its braces filled in where it has any) in
    the state the directory was made in, and sends its record
    "Logging initialized: ..." to the console and to the file, but only
    if the configured level is INFO or lower; at a higher level it sends
    nothing. *)
Theorem setup_logging_trace cp w lg w' :
  setup_logging cp w = (Returned lg, w') ->
  exists s lvl path s1 file s2,
    fst (read_settings cp w) = Returned s
    /\ check_level (log_level s) = Returned lvl
    /\ log_file s = PStr path
    /\ mkdir_parents (path_parent path) (w_os w) = inr s1
    /\ (if has_brace path then expand_path path s1 = inr file
        else file = path)
    /\ open_append file s1 = inr s2
    /\ w_trace w'
       = w_trace w
         ++ config_reads (default_arg cp "config.yaml") (w_os w)
         ++ [EvMkdir (path_parent path); EvOpen file]
         ++ installed_writes lvl path (first_record s (now s2)).
Proof.
  intros E.
  destruct (setup_logging_returned_world _ _ E)
    as (s & lvl & path & rot & keep & file & s1 & s2 & reads
        & Hs & Hlvl & Hfile & _ & _ & Hmk & Hexp & Hop & Hreads & _ & Htr).
  subst reads.
  exists s, lvl, path, s1, file, s2. auto 10.
Qed.

(** X7.  After a returning call both sinks filter at the configured
    level: a record at or above it is written once to the console and
    once to the log file, in this order, and a record below it is written
    nowhere. *)
Theorem installed_sinks_filter_by_level cp w lg w' :
  setup_logging cp w = (Returned lg, w') ->
  exists s lvl path,
    fst (read_settings cp w) = Returned s
    /\ check_level (log_level s) = Returned lvl
    /\ log_file s = PStr path
    /\ forall handle lv caller message,
         w_trace (snd (logger_log handle lv caller message w'))
         = w_trace w'
           ++ installed_writes lvl path
                (mk_record (now (w_os w')) lv (f_module caller)
                   (f_function caller) (f_lineno caller) message (extra handle)).
Proof.
  intros E.
  destruct (setup_logging_returned_world _ _ E)
    as (s & lvl & path & rot & keep & file & s1 & s2 & reads
        & Hs & Hlvl & Hfile & _ & _ & _ & _ & _ & _ & Hc & _).
  exists s, lvl, path. repeat (split; [solve [auto]|]).
  intros handle lv caller message. unfold logger_log. cbn [snd].
  rewrite fold_emit_trace, Hc. f_equal. apply installed_flat_map.
Qed.

(** X8.  After a returning call, a record sent through
    [get_logger(name)] leaves the world exactly as the same record sent
    through the logger itself: the same lines to the same sinks, for
    every name, given or not. *)
Theorem get_logger_writes_as_logger cp w lg w' :
  setup_logging cp w = (Returned lg, w') ->
  forall name lv caller message,
    logger_log (get_logger name) lv caller message w'
    = logger_log logger lv caller message w'.
Proof.
  intros E name lv caller message.
  destruct (setup_logging_returned_world _ _ E)
    as (s & lvl & path & rot & keep & file & s1 & s2 & reads
        & _ & _ & _ & _ & _ & _ & _ & _ & _ & Hc & _).
  unfold logger_log. rewrite Hc.
  cbn [handlers installed_core fold_left].
  unfold emit. cbn [snd console_handler file_handler h_levelno h_format
                    h_colorize r_level].
  destruct (render_ignores_extra true (now (w_os w')) lv (f_module caller)
              (f_function caller) (f_lineno caller) message
              (extra (get_logger name)) (extra logger)) as [-> _].
  destruct (render_ignores_extra false (now (w_os w')) lv (f_module caller)
              (f_function caller) (f_lineno caller) message
              (extra (get_logger name)) (extra logger)) as [_ ->].
  reflexivity.
Qed.


(** X12.  When the lookup of the configuration file is itself refused,
    the call raises that error at once: nothing is read, the handlers
    stay as they were, no default is applied. *)
Theorem setup_logging_lookup_refused cp w e :
  path_exists (default_arg cp "config.yaml") (w_os w) = Refused e ->
  setup_logging cp w
  = (Raised e, log_event (EvExists (default_arg cp "config.yaml")) w).
Proof.
  intros Hex. rewrite setup_logging_blocks. unfold and_then, read_settings.
  unfold_ops. rewrite Hex. reflexivity.
Qed.
End Records.


(** ** The further statements at work *)

Lemma setup_logging_level_refused_witness :
  let w := world_with_config "logging: {level: info}" in
  fst (read_settings None w)
  = Returned (mk_settings (PStr "info") (PStr "logs/bot.log") (PInt 10) (PInt 5))
  /\ exists w',
       setup_logging None w = (Raised ValueError, w')
       /\ (ValueError = ValueError \/ ValueError = TypeError)
       /\ handlers (w_core w') = []
       /\ w_os w' = w_os w
       /\ forall lg lv caller message,
            snd (logger_log lg lv caller message w') = w'.
Proof.
  intros w. split; [reflexivity|].
  apply (@setup_logging_level_refused (host_reading more_documents) None w
           (mk_settings (PStr "info") (PStr "logs/bot.log") (PInt 10) (PInt 5))
           ValueError);
    reflexivity.
Defined.

Lemma setup_logging_file_not_text_witness :
  let w := world_with_config "logging: {file: 7}" in
  exists w',
    setup_logging None w = (Raised TypeError, w')
    /\ handlers (w_core w') = [(handlers_count (w_core w), console_handler 20)]
    /\ w_os w' = w_os w
    /\ count_events is_mkdir (w_trace w') = count_events is_mkdir (w_trace w).
Proof.
  intros w.
  apply (@setup_logging_file_not_text (host_reading more_documents) None w
           (mk_settings (PStr "INFO") (PInt 7) (PInt 10) (PInt 5)) 20);
    [reflexivity | reflexivity | cbn; intros p Hp; discriminate Hp].
Defined.

Lemma setup_logging_section_not_mapping_witness :
  setup_logging None (world_with_config "logging:")
  = (Raised AttributeError,
     mk_world (H := host_reading more_documents) (fs_with_config "logging:")
       core_at_import [EvExists "config.yaml"; EvRead "config.yaml"]).
Proof.
  apply (@setup_logging_section_not_mapping (host_reading more_documents) None
           (world_with_config "logging:") "logging:"
           [(PStr "logging", PNone)] PNone);
    reflexivity.
Defined.

Lemma read_settings_field_by_field_witness :
  fst (read_settings None (world_with_config "logging: {level: WARNING}"))
  = Returned (mk_settings (PStr "WARNING") (PStr "logs/bot.log") (PInt 10) (PInt 5)).
Proof.
  apply (@read_settings_field_by_field (host_reading more_documents) None
           (world_with_config "logging: {level: WARNING}")
           "logging: {level: WARNING}"
           [(PStr "logging", PDict [(PStr "level", PStr "WARNING")])]
           [(PStr "level", PStr "WARNING")]);
    reflexivity.
Defined.


Lemma setup_logging_braces_refused_witness :
  let w := mk_world (H := host_reading option_documents)
             (fs_with_config "logging: {file: 'logs/{bot.log', backup_count: 2.5}")
             core_at_import [] in
  make_retention_function (H := host_reading option_documents)
    (POther "2.5" "2.5") = Raised TypeError
  /\ exists w' evs,
    setup_logging None w = (Raised ValueError, w')
    /\ handlers (w_core w') = [(handlers_count (w_core w), console_handler 20)]
    /\ w_os w'
       = mk_mem_fs ["logs"]
           [("config.yaml", "logging: {file: 'logs/{bot.log', backup_count: 2.5}")] []
    /\ w_trace w' = w_trace w ++ evs
    /\ count_events is_mkdir evs = 1%nat
    /\ count_events is_open evs = 0%nat.
Proof.
  intros w. split; [reflexivity|].
  apply (@setup_logging_braces_refused (host_reading option_documents) None w
           (mk_settings (PStr "INFO") (PStr "logs/{bot.log") (PInt 10)
                        (POther "2.5" "2.5"))
           20 "logs/{bot.log");
    reflexivity.
Defined.

Lemma setup_logging_trace_witness :
  let w := mem_world fs_empty in
  let w' := snd (setup_logging (H := mem_host) None w) in
  exists s lvl path s1 file s2,
    fst (read_settings None w) = Returned s
    /\ check_level (log_level s) = Returned lvl
    /\ log_file s = PStr path
    /\ mkdir_parents (path_parent path) (w_os w) = inr s1
    /\ (if has_brace path then expand_path path s1 = inr file
        else file = path)
    /\ open_append file s1 = inr s2
    /\ w_trace w'
       = w_trace w
         ++ config_reads "config.yaml" (w_os w)
         ++ [EvMkdir (path_parent path); EvOpen file]
         ++ installed_writes lvl path (first_record (H := mem_host) s (now s2)).
Proof.
  intros w w'.
  apply (@setup_logging_trace mem_host None w logger w').
  vm_compute. reflexivity.
Defined.

Lemma setup_logging_lookup_refused_witness :
  let w := mk_world (H := host_refusing_lookups) fs_etc_denied core_at_import [] in
  setup_logging (Some "etc/bot/config.yaml") w
  = (Raised (OSError 13), log_event (EvExists "etc/bot/config.yaml") w).
Proof.
  intros w.
  apply (@setup_logging_lookup_refused host_refusing_lookups
           (Some "etc/bot/config.yaml") w (OSError 13)).
  reflexivity.
Defined.

Lemma installed_sinks_filter_by_level_witness :
  let w := world_with_config "logging: {level: WARNING}" in
  let w' := snd (setup_logging None w) in
  exists s lvl path,
    fst (read_settings None w) = Returned s
    /\ check_level (log_level s) = Returned lvl
    /\ log_file s = PStr path
    /\ forall handle lv caller message,
         w_trace (snd (logger_log handle lv caller message w'))
         = w_trace w'
           ++ installed_writes lvl path
                (mk_record (now (w_os w')) lv (f_module caller)
                   (f_function caller) (f_lineno caller) message (extra handle)).
Proof.
  intros w w'.
  apply (@installed_sinks_filter_by_level (host_reading more_documents) None w
           logger w').
  vm_compute. reflexivity.
Defined.

Lemma get_logger_writes_as_logger_witness :
  let w' := snd (setup_logging (H := mem_host) None (mem_world fs_empty)) in
  logger_log (get_logger (H := mem_host) (Some "moduleA")) INFO
    (mk_frame "strategies.rsi" "on_tick" 42) "signal" w'
  = logger_log logger INFO (mk_frame "strategies.rsi" "on_tick" 42) "signal" w'.
Proof.
  intros w'.
  apply (@get_logger_writes_as_logger mem_host None (mem_world fs_empty) logger w').
  vm_compute. reflexivity.
Defined.

Lemma setup_logging_config_unreadable_witness :
  setup_logging (H := mem_host) None (mem_world fs_config_is_directory)
  = (Raised (OSError 21),
     mk_world (H := mem_host) fs_config_is_directory core_at_import
       [EvExists "config.yaml"; EvRead "config.yaml"]).
Proof.
  apply (@setup_logging_config_unreadable mem_host None
           (mem_world fs_config_is_directory) (OSError 21));
    reflexivity.
Defined.

(** A call at level WARNING sends nothing of its own: its first record
    is at INFO. *)
Example setup_logging_quiet_at_warning :
  let w := world_with_config "logging: {level: WARNING}" in
  fst (setup_logging None w) = Returned logger
  /\ w_trace (snd (setup_logging None w))
     = [EvExists "config.yaml"; EvRead "config.yaml"; EvMkdir "logs";
        EvOpen "logs/bot.log"].
Proof. split; reflexivity. Qed.

